(** * Audio Call Analyzer: the React front end, embedded and verified

    A shallow embedding of the TypeScript sources of the front end
    ([UploadForm.tsx], [App.tsx], [types.ts], [ToneView.tsx],
    [TranscriptView.tsx], [IssuesView.tsx]).

    - React state ([useState]) is a record; every handler is a function from
      the state before the event to the state after it.
    - A callback prop ([onUpload]) is modelled by the value the handler passes
      to it: [Some file] when the callback is invoked, [None] when it is not.
    - The [async] function [handleUpload] is the list of the state updates
      it makes, in program order, for each way its [fetch] can settle.
    - The body of a response that is not ok is a JSON value of any shape; the
      body of an ok response is JSON [null] or a value of the type the
      source annotates it with, and is stored unchecked, as the source
      stores it.
    - JSX is a tree of elements with their class names, inline styles and
      text; the path data of the decorative [svg] icons is left out.
    - JavaScript numbers are IEEE 754 binary64 values ([spec_float] with
      [prec = 53], [emax = 1024]); file sizes and HTTP status codes, which
      are integers, are in [Z]. *)

From Stdlib Require Import ZArith List String Ascii Bool Lia DecimalString.
From Stdlib Require Import Floats.SpecFloat.
Import ListNotations.
Open Scope string_scope.
Open Scope Z_scope.

(* ================================================================== *)
(** * The JavaScript primitives the components call *)
(* ================================================================== *)

Module JS.

(** Strings are sequences of bytes.  The only string operations of the
    sources are [split(".")], [toLowerCase], [includes], [join], [slice] and
    concatenation; the accept list is ASCII, so what [toLowerCase] does
    outside [A-Z] never changes a comparison with it. *)

(** [s.split(sep)] for a one-character separator: the pieces between the
    separators, in order.  The result is never empty: the empty string
    splits to one empty piece. *)
Fixpoint split (sep : ascii) (s : string) : list string :=
  match s with
  | EmptyString => [EmptyString]
  | String c rest =>
      if Ascii.eqb c sep then EmptyString :: split sep rest
      else match split sep rest with
           | [] => [String c EmptyString]
           | piece :: pieces => String c piece :: pieces
           end
  end.

(** [a.pop()]: the last element, [undefined] ([None]) on an empty array. *)
Fixpoint pop {A : Type} (a : list A) : option A :=
  match a with
  | [] => None
  | [x] => Some x
  | _ :: rest => pop rest
  end.

Definition lower_ascii (c : ascii) : ascii :=
  let n := nat_of_ascii c in
  if (Nat.leb 65 n && Nat.leb n 90)%bool then ascii_of_nat (n + 32) else c.

Fixpoint toLowerCase (s : string) : string :=
  match s with
  | EmptyString => EmptyString
  | String c rest => String (lower_ascii c) (toLowerCase rest)
  end.

(** [a.includes(x)] on an array of strings. *)
Definition includes (a : list string) (x : string) : bool :=
  existsb (String.eqb x) a.

(** [a.join(sep)]. *)
Definition join (sep : string) (a : list string) : string :=
  String.concat sep a.

(** [s.slice(0, n)]. *)
Definition slice0 (n : nat) (s : string) : string := substring 0 n s.

(** String concatenation with a possibly [undefined] right operand:
    ["." + undefined] is [".undefined"]. *)
Definition plus_opt (s : string) (o : option string) : string :=
  match o with
  | Some t => s ++ t
  | None => s ++ "undefined"
  end.

(** Truthiness of a string: only the empty string is falsy. *)
Definition truthy (s : string) : bool :=
  match s with EmptyString => false | _ => true end.

(** [a || b] on strings. *)
Definition or_else (a b : string) : string := if truthy a then a else b.

(** Decimal text of an integer, as a template literal prints it. *)
Definition show_Z (z : Z) : string := NilZero.string_of_int (Z.to_int z).

(** A value thrown and caught: an [Error] instance with its message, or
    anything else. *)
Inductive Thrown :=
| ErrorInstance (message : string)
| NotAnError.

(** The settlement of a promise, or the completion of a call. *)
Inductive Outcome (A : Type) :=
| Returns (a : A)
| Throws (t : Thrown).
Arguments Returns {A} a.
Arguments Throws {A} t.

End JS.

(* ================================================================== *)
(** * The browser's [File] *)
(* ================================================================== *)

(** The [File] objects of the browser: the component reads [name] and [size];
    [type] and the content travel with the file to [onUpload]. *)
Record File := {
  name : string;
  size : Z;
  type : string;
  content : list Byte.byte
}.

(* ================================================================== *)
(** * UploadForm.tsx *)
(* ================================================================== *)

Module UploadForm.

(** The three [useState] cells of the component. *)
Record State := {
  selectedFile : option File;
  error : string;
  isDragging : bool
}.

Definition initial : State :=
  {| selectedFile := None; error := EmptyString; isDragging := false |}.

Definition setSelectedFile (v : option File) (st : State) : State :=
  {| selectedFile := v; error := error st; isDragging := isDragging st |}.

Definition setError (v : string) (st : State) : State :=
  {| selectedFile := selectedFile st; error := v; isDragging := isDragging st |}.

Definition setIsDragging (v : bool) (st : State) : State :=
  {| selectedFile := selectedFile st; error := error st; isDragging := v |}.

Definition allowedTypes : list string := [".mp3"; ".wav"; ".m4a"].

(** [25 * 1024 * 1024] *)
Definition maxSize : Z := 25 * 1024 * 1024.

(** ["." + file.name.split(".").pop()?.toLowerCase()] *)
Definition fileExt (file : File) : string :=
  JS.plus_opt "." (option_map JS.toLowerCase (JS.pop (JS.split "." (name file)))).

Definition invalidTypeMessage : string :=
  "Invalid file type. Allowed: " ++ JS.join ", " allowedTypes.

Definition sizeMessage : string := "File size exceeds 25 MB limit".

Definition handleFileSelect (file : File) (st : State) : State :=
  if negb (JS.includes allowedTypes (fileExt file)) then
    setSelectedFile None (setError invalidTypeMessage st)
  else if size file >? maxSize then
    setSelectedFile None (setError sizeMessage st)
  else
    setSelectedFile (Some file) (setError EmptyString st).

(** [e.target.files?.[0]] and [e.dataTransfer.files?.[0]]: the list may be
    missing, and may be empty. *)
Definition first_file (files : option (list File)) : option File :=
  match files with
  | Some (f :: _) => Some f
  | _ => None
  end.

Definition handleInputChange (files : option (list File)) (st : State) : State :=
  match first_file files with
  | Some file => handleFileSelect file st
  | None => st
  end.

Definition handleDragOver (st : State) : State := setIsDragging true st.

Definition handleDragLeave (st : State) : State := setIsDragging false st.

Definition handleDrop (files : option (list File)) (st : State) : State :=
  let st := setIsDragging false st in
  match first_file files with
  | Some file => handleFileSelect file st
  | None => st
  end.

(** [handleSubmit]: the argument given to [onUpload], if it is called. *)
Definition handleSubmit (isProcessing : bool) (st : State) : option File :=
  match selectedFile st with
  | Some file => if negb isProcessing then Some file else None
  | None => None
  end.

(** [handleReset]; clearing the value of the file input leaves the React
    state as it is. *)
Definition handleReset (st : State) : State :=
  setError EmptyString (setSelectedFile None st).

(** The [disabled] attribute of the submit button. *)
Definition submitDisabled (isProcessing : bool) (st : State) : bool :=
  match selectedFile st with
  | Some _ => isProcessing
  | None => true
  end.

(** What the user can do to the form. *)
Inductive Event :=
| InputChange (files : option (list File))
| DragOver
| DragLeave
| Drop (files : option (list File))
| Click
| Submit
| Reset.

(** One event, under the [isProcessing] prop of the current render: the
    next state, and the [onUpload] call it makes, if any. *)
Definition step (isProcessing : bool) (ev : Event) (st : State)
  : State * option File :=
  match ev with
  | InputChange files => (handleInputChange files st, None)
  | DragOver => (handleDragOver st, None)
  | DragLeave => (handleDragLeave st, None)
  | Drop files => (handleDrop files st, None)
  | Click => (st, None)
  | Submit => (st, handleSubmit isProcessing st)
  | Reset => (handleReset st, None)
  end.

(** A whole interaction: each event comes with the value the parent gives
    to [isProcessing] at that moment.  The result is the final state and,
    in order, one entry per [onUpload] call: the prop and the state under
    which it was made, and the file passed. *)
Fixpoint run (evs : list (bool * Event)) (st : State)
  : State * list (bool * State * File) :=
  match evs with
  | [] => (st, [])
  | (isProcessing, ev) :: rest =>
      let '(st', call) := step isProcessing ev st in
      let '(final, calls) := run rest st' in
      (final,
       match call with
       | Some file => (isProcessing, st, file) :: calls
       | None => calls
       end)
  end.

(** A file that passed [handleFileSelect]'s two checks. *)
Definition validated (file : File) : bool :=
  JS.includes allowedTypes (fileExt file) && (size file <=? maxSize).

(** The selected file, when there is one, passed validation. *)
Definition selection_validated (st : State) : Prop :=
  forall file, selectedFile st = Some file -> validated file = true.

End UploadForm.

(* ================================================================== *)
(** * types.ts *)
(* ================================================================== *)

Module Types.

(** A JavaScript [number]: an IEEE 754 binary64 value. *)
Definition number : Type := spec_float.

(** The string unions of [types.ts] ([speaker], [label]) are strings at run
    time: the response is cast to [AnalysisResponse] without validation
    (App.tsx, line 39), so the fields keep the type they have on the wire. *)
Record TranscriptSegment := {
  speaker : string;
  text : string;
  start : number;
  end_ : number
}.

Record Issue := {
  title : string;
  details : string;
  issue_evidence : list string
}.

Record Tone := {
  label : string;
  confidence : number;
  tone_evidence : list string
}.

Record SpeakerCounts := {
  segments : number;
  duration_seconds : number;
  word_count : number
}.

Record SpeakerStatistics := {
  agent : SpeakerCounts;
  customer : SpeakerCounts;
  total_segments : number;
  total_duration : number
}.

Record Metadata := {
  filename : string;
  file_size_mb : number;
  processing_time_seconds : number;
  request_id : string;
  timestamp : string;
  segment_count : number;
  speaker_statistics : SpeakerStatistics
}.

(** [metadata?: Metadata]: the field may be absent. *)
Record AnalysisResponse := {
  transcript : list TranscriptSegment;
  issues : list Issue;
  tone : Tone;
  metadata : option Metadata
}.

Inductive ProcessingState := Idle | Uploading | Processing | Success | Error.

(** The four members of the [label] union. *)
Definition toneLabels : list string := ["Calm"; "Frustrated"; "Angry"; "Anxious"].

End Types.

(* ================================================================== *)
(** * Numbers: the arithmetic of ToneView.tsx *)
(* ================================================================== *)

Module Num.
Import Types.

Definition prec : Z := 53.
Definition emax : Z := 1024.

(** The binary64 value of an integer literal. *)
Definition of_Z (z : Z) : number := binary_normalize prec emax z 0 false.

Definition zero : number := of_Z 0.
Definition one : number := of_Z 1.
Definition hundred : number := of_Z 100.

(** [x * y] *)
Definition mul (x y : number) : number := SFmul prec emax x y.

(** [x - y] *)
Definition sub (x y : number) : number := SFsub prec emax x y.

(** [0 <= x && x <= 1] *)
Definition in_unit_interval (x : number) : bool :=
  SFleb zero x && SFleb x one.

(** A well-formed binary64 value. *)
Definition wf (x : number) : bool := valid_binary prec emax x.

(** The rounding of [SFmul] shifts the exact product to the right.  This is
    what a record of the shift holds once [P] has lost its [k] low bits:
    the bits that are left, and a round or sticky bit only if a bit that
    was lost was set. *)
Definition shifted (P k : Z) (r : shr_record) : Prop :=
  shr_m r = P / 2 ^ k /\ (shr_r r || shr_s r = true -> P mod 2 ^ k <> 0).

(** An integral number, as [Math.round] returns it.  The integer is kept
    exact; [-0] is [Int 0], and prints the same. *)
Inductive Integral :=
| Int (z : Z)
| NaN
| Infinity (negative : bool).

(** [Math.round(x)]: the integer closest to [x], ties towards +infinity;
    that is, the floor of [x + 1/2] taken exactly. *)
Definition Math_round (x : number) : Integral :=
  match x with
  | S754_zero _ => Int 0
  | S754_nan => NaN
  | S754_infinity s => Infinity s
  | S754_finite s m e =>
      let sm := cond_Zopp s (Zpos m) in
      if 0 <=? e then Int (sm * 2 ^ e)
      else Int ((2 * sm + 2 ^ (- e)) / 2 ^ (1 - e))
  end.

(** The text of an integral number in a template literal.  From [1e21] on,
    JavaScript prints in exponent notation, which the host provides. *)
Definition show (exponential : Z -> string) (n : Integral) : string :=
  match n with
  | Int z => if Z.abs z <? 10 ^ 21 then JS.show_Z z else exponential z
  | NaN => "NaN"
  | Infinity false => "Infinity"
  | Infinity true => "-Infinity"
  end.

End Num.

(** What the components take from the JavaScript host and this development
    leaves as it finds it: the decimal formatting of fractional numbers. *)
Record Host := {
  toFixed : nat -> Types.number -> string;
  exponential : Z -> string
}.

(* ================================================================== *)
(** * JSX *)
(* ================================================================== *)

#[warnings="-register-all"]
Inductive Html :=
| Text (s : string)
| Icon (className : string)
| El (tag : string) (className : string) (style : list (string * string))
     (children : list Html).

(** All the text of a tree, in document order. *)
Fixpoint texts (h : Html) : list string :=
  match h with
  | Text s => [s]
  | Icon _ => []
  | El _ _ _ children => flat_map texts children
  end.

(** All the inline style declarations of a tree for one property. *)
Fixpoint styles (prop : string) (h : Html) : list string :=
  match h with
  | Text _ => []
  | Icon _ => []
  | El _ _ style children =>
      map snd (filter (fun d => String.eqb (fst d) prop) style)
      ++ flat_map (styles prop) children
  end.

(** All the class names of a tree, in document order. *)
Fixpoint classNames (h : Html) : list string :=
  match h with
  | Text _ => []
  | Icon c => [c]
  | El _ c _ children => c :: flat_map classNames children
  end.

(** [a.map((x, index) => f x index)] *)
Fixpoint mapi_from {A B : Type} (i : nat) (f : A -> nat -> B) (a : list A) : list B :=
  match a with
  | [] => []
  | x :: rest => f x i :: mapi_from (S i) f rest
  end.

Definition mapi {A B : Type} (f : A -> nat -> B) (a : list A) : list B :=
  mapi_from 0 f a.

(** [cond && <jsx/>] as a child: nothing when the condition is false. *)
Definition when (cond : bool) (h : Html) : list Html :=
  if cond then [h] else [].

(* ================================================================== *)
(** * ToneView.tsx *)
(* ================================================================== *)

Module ToneView.
Import Types.

Record Config := {
  bg : string;
  text : string;
  border : string;
  progress : string
}.

Definition Calm : Config :=
  {| bg := "bg-green-50"; text := "text-green-700";
     border := "border-green-200"; progress := "bg-green-500" |}.

Definition Frustrated : Config :=
  {| bg := "bg-yellow-50"; text := "text-yellow-700";
     border := "border-yellow-200"; progress := "bg-yellow-500" |}.

Definition Angry : Config :=
  {| bg := "bg-red-50"; text := "text-red-700";
     border := "border-red-200"; progress := "bg-red-500" |}.

Definition Anxious : Config :=
  {| bg := "bg-purple-50"; text := "text-purple-700";
     border := "border-purple-200"; progress := "bg-purple-500" |}.

(** [toneConfig] is an object literal, so a property read that finds no own
    property goes on to [Object.prototype]. *)
Definition Object_prototype_keys : list string :=
  ["constructor"; "hasOwnProperty"; "isPrototypeOf"; "propertyIsEnumerable";
   "toLocaleString"; "toString"; "valueOf"; "__proto__";
   "__defineGetter__"; "__defineSetter__";
   "__lookupGetter__"; "__lookupSetter__"].

(** The value of a property read on [toneConfig]. *)
Inductive Value :=
| Own (c : Config)     (* one of the four entries *)
| Inherited            (* a member of [Object.prototype]: an object, truthy *)
| Undefined.

(** [toneConfig[key]] *)
Definition toneConfig (key : string) : Value :=
  if String.eqb key "Calm" then Own Calm
  else if String.eqb key "Frustrated" then Own Frustrated
  else if String.eqb key "Angry" then Own Angry
  else if String.eqb key "Anxious" then Own Anxious
  else if JS.includes Object_prototype_keys key then Inherited
  else Undefined.

(** [a || b]: [undefined] is the only falsy value a read can give. *)
Definition or_else (a b : Value) : Value :=
  match a with
  | Undefined => b
  | _ => a
  end.

(** [`${config.f}`]: the field of an entry; a member of [Object.prototype]
    has none of the four fields, and [undefined] prints as its name. *)
Definition field (f : Config -> string) (config : Value) : string :=
  match config with
  | Own c => f c
  | _ => "undefined"
  end.

(** [Math.round(tone.confidence * 100)] *)
Definition confidencePercent (tone : Tone) : Num.Integral :=
  Num.Math_round (Num.mul (confidence tone) Num.hundred).

(** [toneConfig[tone.label] || toneConfig.Calm] *)
Definition config (tone : Tone) : Value :=
  or_else (toneConfig (label tone)) (toneConfig "Calm").

Definition percentText (H : Host) (tone : Tone) : string :=
  Num.show (exponential H) (confidencePercent tone).

Definition ToneView (H : Host) (tone : Tone) : Html :=
  let confidencePercent := percentText H tone in
  let config := config tone in
  El "div" "bg-white rounded-lg shadow-sm border border-gray-200 p-5" []
    [ El "div" "flex items-center gap-2 mb-4" []
        [ El "div" ("p-1.5 rounded " ++ field bg config ++ " border " ++ field border config) []
            [ Icon ("w-4 h-4 " ++ field text config) ];
          El "h2" "text-base font-semibold text-gray-900" [] [ Text "Tone Analysis" ] ];
      El "div" "space-y-4" []
        ( El "div" "space-y-2.5" []
            [ El "div" "flex items-center justify-between" []
                [ El "span" ("px-2.5 py-1 rounded border " ++ field border config
                             ++ " font-semibold " ++ field text config ++ " text-xs") []
                    [ Text (label tone) ];
                  El "span" "text-lg font-semibold text-gray-900" []
                    [ Text confidencePercent; Text "%" ] ];
              El "div" "space-y-1" []
                [ El "div" "flex items-center justify-between text-xs text-gray-500" []
                    [ El "span" EmptyString [] [ Text "Confidence" ];
                      El "span" "font-medium" [] [ Text confidencePercent; Text "%" ] ];
                  El "div" "w-full bg-gray-200 rounded-full h-1.5 overflow-hidden" []
                    [ El "div" ("h-full " ++ field progress config
                                ++ " rounded-full transition-all duration-500")
                         [ ("width", confidencePercent ++ "%") ] [] ] ] ]
          :: when (negb (Nat.eqb (List.length (tone_evidence tone)) 0))
               (El "div" "pt-3 border-t border-gray-200" []
                  [ El "p" "text-xs font-semibold text-gray-700 mb-2 uppercase tracking-wide" []
                      [ Text "Reasoning" ];
                    El "div" "flex flex-col gap-1.5" []
                      (mapi (fun item idx =>
                               El "div" "flex items-start gap-1.5 text-xs text-gray-600" []
                                 [ El "span" ("mt-0.5 w-1 h-1 rounded-full " ++ field progress config
                                              ++ " shrink-0") [] [];
                                   El "span" "leading-relaxed" [] [ Text item ] ])
                            (tone_evidence tone)) ]) ) ].

End ToneView.

(* ================================================================== *)
(** * TranscriptView.tsx *)
(* ================================================================== *)

Module TranscriptView.
Import Types.

Definition segmentView (H : Host) (segment : TranscriptSegment) (index : nat) : Html :=
  let isAgent := String.eqb (speaker segment) "Agent" in
  let duration := toFixed H 1 (Num.sub (end_ segment) (start segment)) in
  let bgColor := if isAgent then "bg-blue-50" else "bg-orange-50" in
  let textColor := if isAgent then "text-blue-700" else "text-orange-700" in
  let badgeBg := if isAgent then "bg-blue-100" else "bg-orange-100" in
  El "div" (bgColor ++ " rounded-lg border border-gray-200 p-3") []
    [ El "div" "flex items-start justify-between gap-3 mb-1.5" []
        [ El "div" "flex items-center gap-1.5" []
            [ El "span" ("px-1.5 py-0.5 rounded " ++ badgeBg ++ " " ++ textColor
                         ++ " text-xs font-semibold") []
                [ Text (speaker segment) ] ];
          El "div" "flex items-center gap-1 text-xs text-gray-500" []
            [ Icon "w-3 h-3";
              El "span" "font-mono text-xs" []
                [ Text (toFixed H 1 (start segment)); Text "s - ";
                  Text (toFixed H 1 (end_ segment)); Text "s" ];
              El "span" "text-gray-400" [] [ Text "â€¢" ];
              El "span" "text-xs" [] [ Text duration; Text "s" ] ] ];
      El "p" "text-xs text-gray-800 leading-relaxed" [] [ Text (Types.text segment) ] ].

Definition TranscriptView (H : Host) (transcript : list TranscriptSegment) : Html :=
  if Nat.eqb (List.length transcript) 0 then
    El "div" "bg-white rounded-lg shadow-sm border border-gray-200 p-8 text-center" []
      [ Icon "w-8 h-8 text-gray-400 mx-auto mb-2";
        El "p" "text-xs text-gray-500 font-medium" [] [ Text "No transcript available" ] ]
  else
    El "div" "bg-white rounded-lg shadow-sm border border-gray-200 p-5" []
      [ El "div" "flex items-center gap-2 mb-4" []
          [ El "div" "p-1.5 rounded bg-blue-50 border border-blue-200" []
              [ Icon "w-4 h-4 text-blue-600" ];
            El "h2" "text-base font-semibold text-gray-900" [] [ Text "Transcript" ];
            El "span" "ml-auto px-2 py-0.5 bg-gray-100 text-gray-700 text-xs font-semibold rounded-full" []
              [ Text (JS.show_Z (Z.of_nat (List.length transcript))); Text " segments" ] ];
        El "div" "bg-gray-50 rounded-lg border border-gray-200 p-3 max-h-[500px] overflow-y-auto custom-scrollbar" []
          [ El "div" "space-y-2.5" [] (mapi (segmentView H) transcript) ] ].

End TranscriptView.

(* ================================================================== *)
(** * IssuesView.tsx *)
(* ================================================================== *)

Module IssuesView.
Import Types.

(** The text of the two [span]s around a quote: one double-quote character. *)
Definition quote_mark : string := String (ascii_of_nat 34) EmptyString.

Definition issueView (issue : Issue) (index : nat) : Html :=
  El "div" "bg-gray-50 rounded-lg border border-gray-200 p-4 min-w-[280px] max-w-[320px] shrink-0" []
    ( El "div" "flex items-start gap-2 mb-3" []
        [ El "div" "shrink-0 w-6 h-6 rounded-full bg-orange-500 flex items-center justify-center text-white text-xs font-bold" []
            [ Text (JS.show_Z (Z.of_nat index + 1)) ];
          El "div" "flex-1 min-w-0" []
            [ El "h3" "text-sm font-semibold text-gray-900 mb-1.5 leading-tight" []
                [ Text (title issue) ];
              El "p" "text-xs text-gray-600 leading-relaxed mb-3" []
                [ Text (details issue) ] ] ]
      :: when (negb (Nat.eqb (List.length (issue_evidence issue)) 0))
           (El "div" "mt-3 pt-3 border-t border-gray-200" []
              [ El "p" "text-xs font-semibold text-gray-700 mb-2 uppercase tracking-wide" []
                  [ Text "Evidence" ];
                El "div" "flex flex-col gap-2" []
                  (mapi (fun quote idx =>
                           El "div" "text-xs text-gray-600 bg-white rounded border border-gray-200 p-2.5" []
                             [ El "span" "text-orange-500" [] [ Text quote_mark ];
                               El "span" "italic" [] [ Text quote ];
                               El "span" "text-orange-500" [] [ Text quote_mark ] ])
                        (issue_evidence issue)) ]) ).

Definition IssuesView (issues : list Issue) : Html :=
  if Nat.eqb (List.length issues) 0 then
    El "div" "bg-white rounded-lg shadow-sm border border-gray-200 p-6 flex items-center justify-center min-h-[300px]" []
      [ El "div" "text-center" []
          [ Icon "w-8 h-8 text-gray-400 mx-auto mb-2";
            El "p" "text-xs text-gray-500 font-medium" [] [ Text "No issues found" ] ] ]
  else
    El "div" "bg-white rounded-lg shadow-sm border border-gray-200 p-5" []
      [ El "div" "flex items-center gap-2 mb-4" []
          [ El "div" "p-1.5 rounded bg-orange-50 border border-orange-200" []
              [ Icon "w-4 h-4 text-orange-600" ];
            El "h2" "text-base font-semibold text-gray-900" [] [ Text "Issues" ];
            El "span" "ml-auto px-2 py-0.5 bg-orange-100 text-orange-700 text-xs font-semibold rounded-full" []
              [ Text (JS.show_Z (Z.of_nat (List.length issues))) ] ];
        El "div" "overflow-x-auto -mx-5 px-5" []
          [ El "div" "flex gap-4 min-w-max pb-2" [] (mapi issueView issues) ] ].

End IssuesView.

(* ================================================================== *)
(** * JSON values, as [response.json()] gives them *)
(* ================================================================== *)

Module Json.

(** A parsed JSON value.  A number comes with the text JavaScript prints for
    it. *)
#[warnings="-register-all"]
Inductive Value :=
| Null
| Bool (b : bool)
| Number (n : Types.number) (shown : string)
| Str (s : string)
| Array (items : list Value)
| Object (fields : list (string * Value)).

(** Truthiness: [null], [false], zero and the empty string are falsy; every
    array and every object is truthy, the empty ones too. *)
Definition truthy (v : Value) : bool :=
  match v with
  | Null => false
  | Bool b => b
  | Number (S754_zero _) _ | Number S754_nan _ => false
  | Number _ _ => true
  | Str s => JS.truthy s
  | Array _ | Object _ => true
  end.

(** [String(v)], which is what [new Error(v)] makes of its argument: an array
    is its items joined by commas, a [null] item giving nothing; an object is
    ["[object Object]"]. *)
Fixpoint toString (v : Value) : string :=
  match v with
  | Null => "null"
  | Bool true => "true"
  | Bool false => "false"
  | Number _ shown => shown
  | Str s => s
  | Array items =>
      String.concat ","
        (map (fun item => match item with
                          | Null => EmptyString
                          | _ => toString item
                          end) items)
  | Object _ => "[object Object]"
  end.

(** The value of a key among the fields of an object; [JSON.parse] keeps the
    last of several fields of one key. *)
Fixpoint field (key : string) (fields : list (string * Value)) : option Value :=
  match fields with
  | [] => None
  | (k, v) :: rest =>
      match field key rest with
      | Some later => Some later
      | None => if String.eqb k key then Some v else None
      end
  end.

(** [v.key] on a value that is not [null]: [undefined] ([None]) unless [v] is
    an object with that key. *)
Definition get (key : string) (v : Value) : option Value :=
  match v with
  | Object fields => field key fields
  | _ => None
  end.

End Json.

(* ================================================================== *)
(** * App.tsx *)
(* ================================================================== *)

Module App.
Import Types.
Import JS.

(** The four [useState] cells of [App]. *)
Record State := {
  state : ProcessingState;
  data : option AnalysisResponse;
  error : string;
  uploadedFileName : string
}.

Definition initial : State :=
  {| state := Idle; data := None; error := EmptyString;
     uploadedFileName := EmptyString |}.

Definition setState (v : ProcessingState) (st : State) : State :=
  {| state := v; data := data st; error := error st;
     uploadedFileName := uploadedFileName st |}.

Definition setData (v : option AnalysisResponse) (st : State) : State :=
  {| state := state st; data := v; error := error st;
     uploadedFileName := uploadedFileName st |}.

Definition setError (v : string) (st : State) : State :=
  {| state := state st; data := data st; error := v;
     uploadedFileName := uploadedFileName st |}.

Definition setUploadedFileName (v : string) (st : State) : State :=
  {| state := state st; data := data st; error := error st;
     uploadedFileName := v |}.

(** The body of a response that is [ok], once parsed: JSON [null], or a value
    taken at the type the annotation of line 39 gives it. *)
Inductive Body :=
| JsonNull
| Analysis (result : AnalysisResponse).

(** What [setData(result)] stores for a body. *)
Definition stored (body : Body) : option AnalysisResponse :=
  match body with
  | JsonNull => None
  | Analysis result => Some result
  end.

(** What [fetch] resolves to: [response.ok] with the settlement of
    [response.json()]; or a response that is not [ok], with its status and
    the settlement of [response.json()], a JSON value of any shape. *)
Inductive Response :=
| Ok (json : Outcome Body)
| NotOk (status : Z) (json : Outcome Json.Value).

(** Reading a property of [null] throws a [TypeError]; the message is the
    engine's (here V8's). *)
Definition nullDetailMessage : string :=
  "Cannot read properties of null (reading 'detail')".

(** [`HTTP error! status: ${response.status}`] *)
Definition statusMessage (status : Z) : string :=
  "HTTP error! status: " ++ show_Z status.

(** Lines 35-36: what the [!response.ok] branch throws.  [||] is applied to
    the value of [errorData.detail] as it is, and [new Error] makes a string
    of what [||] gives. *)
Definition notOkError (status : Z) (json : Outcome Json.Value) : Thrown :=
  let errorData :=
    match json with
    | Returns v => v
    | Throws _ => Json.Object [("detail", Json.Str "Unknown error")]
    end in
  match errorData with
  | Json.Null => ErrorInstance nullDetailMessage
  | _ =>
      ErrorInstance
        (match Json.get "detail" errorData with
         | Some detail =>
             if Json.truthy detail then Json.toString detail
             else statusMessage status
         | None => statusMessage status
         end)
  end.

(** A call of one of the four state setters. *)
Inductive Update :=
| SetState (v : ProcessingState)
| SetData (v : option AnalysisResponse)
| SetError (v : string)
| SetUploadedFileName (v : string).

Definition update (st : State) (u : Update) : State :=
  match u with
  | SetState v => setState v st
  | SetData v => setData v st
  | SetError v => setError v st
  | SetUploadedFileName v => setUploadedFileName v st
  end.

(** The [catch] block. *)
Definition catch (err : Thrown) : list Update :=
  let errorMessage :=
    match err with
    | ErrorInstance message => message
    | NotAnError => "Failed to process audio"
    end in
  [SetError errorMessage; SetState Error].

(** The setter calls of one run of [handleUpload], in program order: the five
    before the [await fetch(...)], then, by the way the request settles, those
    of lines 40-41 or those of the [catch] block. *)
Definition handleUpload_updates (file : File) (fetched : Outcome Response)
  : list Update :=
  [ SetState Uploading; SetError EmptyString; SetData None;
    SetUploadedFileName (name file); SetState Processing ]
  ++ match fetched with
     | Throws err => catch err
     | Returns (NotOk status json) => catch (notOkError status json)
     | Returns (Ok (Throws err)) => catch err
     | Returns (Ok (Returns result)) => [SetData (stored result); SetState Success]
     end.

(** The state a run of [handleUpload] leaves. *)
Definition handleUpload (file : File) (fetched : Outcome Response) (st : State) : State :=
  fold_left update (handleUpload_updates file fetched) st.


(** The request failed: a status that is not [ok], or anything thrown. *)
Definition failed (fetched : Outcome Response) : bool :=
  match fetched with
  | Returns (Ok (Returns _)) => false
  | _ => true
  end.

Definition handleReset (st : State) : State :=
  setUploadedFileName EmptyString
    (setError EmptyString (setData None (setState Idle st))).

(** What can happen to [App]: an upload, with the way its request settles,
    and a click on one of the two reset buttons. *)
Inductive Event :=
| Upload (file : File) (fetched : Outcome Response)
| ResetClick.

Definition step (st : State) (ev : Event) : State :=
  match ev with
  | Upload file fetched => handleUpload file fetched st
  | ResetClick => handleReset st
  end.

Definition run (evs : list Event) (st : State) : State :=
  fold_left step evs st.

(** The component instances [App] mounts, with their props. *)
Inductive Child :=
| AnalyzeAnotherButton
| UploadFormC (isProcessing : bool)
| ErrorPanel (error : string)
| LoadingPanel (message : string)
| FileInfoHeader (filename : string) (timestamp : string) (requestId : string)
| StatsCards (metadata : Metadata)
| ToneViewC (tone : Tone)
| IssuesViewC (issues : list Issue)
| TranscriptViewC (transcript : list TranscriptSegment).

Definition stateIs (a b : ProcessingState) : bool :=
  match a, b with
  | Idle, Idle | Uploading, Uploading | Processing, Processing
  | Success, Success | Error, Error => true
  | _, _ => false
  end.

(** The dashboard: lines 127-163. *)
Definition dashboard (st : State) : list Child :=
  match data st with
  | Some data =>
      if stateIs (state st) Success then
        match metadata data with
        | Some m =>
            [ FileInfoHeader (or_else (filename m) (uploadedFileName st))
                             (timestamp m) (slice0 8 (request_id m));
              StatsCards m ]
        | None => []
        end
        ++ [ ToneViewC (tone data); IssuesViewC (issues data);
             TranscriptViewC (transcript data) ]
      else []
  | None => []
  end.

Definition render (st : State) : list Child :=
  (if stateIs (state st) Success then [AnalyzeAnotherButton] else [])
  ++ (if stateIs (state st) Idle || stateIs (state st) Error then
        UploadFormC false
        :: (if truthy (error st) then [ErrorPanel (error st)] else [])
      else [])
  ++ (if stateIs (state st) Uploading || stateIs (state st) Processing then
        [LoadingPanel (if stateIs (state st) Uploading then "Uploading file..."
                       else "Processing audio...")]
      else [])
  ++ dashboard st.

End App.

(* ================================================================== *)
(** * The specification's vocabulary *)
(* ================================================================== *)

Module Spec.

(** The extension of a file name, as the specification uses the word
    ("extension is not one of .mp3/.wav/.m4a"): the part of the name from
    its last dot on; a name without a dot has no extension. *)
Fixpoint extension (name : string) : option string :=
  match name with
  | EmptyString => None
  | String c rest =>
      match extension rest with
      | Some e => Some e
      | None => if Ascii.eqb c "." then Some name else None
      end
  end.

(** "extension is ... one of .mp3/.wav/.m4a (case-insensitive)" *)
Definition extensionAccepted (name : string) : bool :=
  match extension name with
  | Some e => JS.includes UploadForm.allowedTypes (JS.toLowerCase e)
  | None => false
  end.

End Spec.

(* ================================================================== *)
(** * Concrete inputs *)
(* ================================================================== *)

Module Examples.
Import Types.

Definition audio (n : string) (bytes : Z) : File :=
  {| name := n; size := bytes; type := "audio/mpeg"; content := [] |}.

(** A recording of exactly 25 MiB. *)
Definition exactly25MiB : File := audio "call.mp3" 26214400.

(** One byte more. *)
Definition over25MiB : File := audio "call.mp3" 26214401.

(** One byte less. *)
Definition under25MiB : File := audio "call.MP3" 26214399.

Definition emptyRecording : File := audio "call.mp3" 0.

Definition emptyText : File := audio "notes.txt" 0.

(** A file whose name has no dot at all. *)
Definition noExtension : File := audio "mp3" 1024.

(** Two files of one name and one size, with different bytes. *)
Definition recordingA : File :=
  {| name := "call.wav"; size := 2; type := "audio/wav";
     content := [Byte.x00; Byte.x01] |}.

Definition recordingB : File :=
  {| name := "call.wav"; size := 2; type := "text/plain";
     content := [Byte.xff; Byte.xfe] |}.

(** 0.76, the confidence of the README's sample response. *)
Definition confidence076 : number := S754_finite false 6845471433603154 (-53).

Definition happy : Tone :=
  {| label := "Happy"; confidence := confidence076;
     tone_evidence := ["Thanks a lot"] |}.

Definition frustrated : Tone :=
  {| label := "Frustrated"; confidence := confidence076;
     tone_evidence := ["Repeated complaints"; "Urgent wording"] |}.

(** The sample response of the README: no [metadata]. *)
Definition readmeResponse : AnalysisResponse :=
  {| transcript :=
       [ {| speaker := "Agent"; text := "Hello, how can I help you?";
            start := S754_zero false;
            end_ := S754_finite false 4728779608739021 (-51) |};
         {| speaker := "Customer"; text := "I haven't received my refund";
            start := S754_finite false 4953959590107546 (-51);
            end_ := S754_finite false 7656119366529843 (-50) |} ];
     issues :=
       [ {| title := "Refund delay";
            details := "Refund not received in 10 days";
            issue_evidence := ["I still haven't got my refund"] |} ];
     tone := frustrated;
     metadata := None |}.

Definition happyResponse : AnalysisResponse :=
  {| transcript := []; issues := []; tone := happy; metadata := None |}.

Definition host : Host :=
  {| toFixed := fun _ _ => "0.0"; exponential := fun _ => "1e+21" |}.


End Examples.

(* ================================================================== *)
(** * UploadForm.tsx: what the form shows *)
(* ================================================================== *)

Module UploadFormView.
Import UploadForm.

(** The parts of the form that depend on its state or its props (lines
    75-183), with what each shows. *)
Inductive Child :=
| DropArea (dragging dimmed : bool) (title subtitle : string)
| FileInput (disabled : bool)
| SelectedCard (fileName sizeText : string) (removeDisabled : bool)
| ErrorBox (message : string)
| SubmitButton (disabled : bool) (caption : string).

(** [`${(selectedFile.size / (1024 * 1024)).toFixed(2)} MB`] *)
Definition sizeText (H : Host) (file : File) : string :=
  toFixed H 2 (SFdiv Num.prec Num.emax (Num.of_Z (size file))
                 (Num.of_Z (1024 * 1024)))
  ++ " MB".

Definition render (H : Host) (isProcessing : bool) (st : State) : list Child :=
  [ DropArea (isDragging st) isProcessing
      (match selectedFile st with
       | Some file => name file
       | None => "Click to upload or drag and drop"
       end)
      (match selectedFile st with
       | Some file => sizeText H file
       | None => "MP3, WAV, or M4A (Max 25 MB)"
       end);
    FileInput isProcessing ]
  ++ match selectedFile st with
     | Some file => [SelectedCard (name file) (sizeText H file) isProcessing]
     | None => []
     end
  ++ (if JS.truthy (error st) then [ErrorBox (error st)] else [])
  ++ [ SubmitButton (submitDisabled isProcessing st)
         (if isProcessing then "Processing..." else "Process Call") ].

Definition isSelectedCard (c : Child) : bool :=
  match c with SelectedCard _ _ _ => true | _ => false end.

Definition isErrorBox (c : Child) : bool :=
  match c with ErrorBox _ => true | _ => false end.

(** The error message is one of three texts, and a file is selected only
    under the empty one. *)
Definition tidy (st : State) : Prop :=
  (error st = EmptyString \/ error st = invalidTypeMessage \/ error st = sizeMessage)
  /\ (selectedFile st <> None -> error st = EmptyString).

End UploadFormView.

(* ================================================================== *)
(** * StatsCards.tsx *)
(* ================================================================== *)

Module StatsCards.
Import Types.

Record Stat := {
  caption : string;
  value : string
}.

(** The [stats] array.  [toString] is the host's conversion of a number to
    text ([n.toString()], and a number in a template literal). *)
Definition stats (H : Host) (toString : number -> string) (metadata : Metadata)
  : list Stat :=
  [ {| caption := "File Size";
       value := toFixed H 2 (file_size_mb metadata) ++ " MB" |};
    {| caption := "Processing Time";
       value := toString (processing_time_seconds metadata) ++ "s" |};
    {| caption := "Total Segments";
       value := toString (segment_count metadata) |};
    {| caption := "Agent Segments";
       value := toString (segments (agent (speaker_statistics metadata))) |};
    {| caption := "Customer Segments";
       value := toString (segments (customer (speaker_statistics metadata))) |};
    {| caption := "Total Duration";
       value := Num.show (exponential H)
                  (Num.Math_round (total_duration (speaker_statistics metadata)))
                ++ "s" |} ].

Definition StatsCards (H : Host) (toString : number -> string) (metadata : Metadata)
  : Html :=
  El "div" "grid grid-cols-2 sm:grid-cols-3 lg:grid-cols-6 gap-3" []
    (mapi (fun stat index =>
             El "div" "bg-white rounded-lg border border-gray-200 p-3 shadow-sm" []
               [ El "div" "flex items-center gap-2 mb-1.5" []
                   [ El "div" "text-gray-500" [] [ Icon "w-4 h-4" ];
                     El "p" "text-xs text-gray-500 font-medium" []
                       [ Text (caption stat) ] ];
                 El "p" "text-base font-semibold text-gray-900" []
                   [ Text (value stat) ] ])
          (stats H toString metadata)).

End StatsCards.

(* ================================================================== *)
(** * What the views show, item by item *)
(* ================================================================== *)

Module Shown.
Import Types.

(** The text of one transcript block, in document order. *)
Definition segmentTexts (H : Host) (segment : TranscriptSegment) : list string :=
  [ speaker segment;
    toFixed H 1 (start segment); "s - "; toFixed H 1 (end_ segment); "s";
    "â€¢";
    toFixed H 1 (Num.sub (end_ segment) (start segment)); "s";
    text segment ].

(** The text of one quote of an issue's evidence. *)
Definition quoteTexts (quote : string) : list string :=
  [IssuesView.quote_mark; quote; IssuesView.quote_mark].

(** The text of the issue card at position [index] (from 0). *)
Definition issueTexts (issue : Issue) (index : nat) : list string :=
  [ JS.show_Z (Z.of_nat index + 1); title issue; details issue ]
  ++ match issue_evidence issue with
     | [] => []
     | evidence => "Evidence" :: flat_map quoteTexts evidence
     end.

(** The cards of a list of issues, numbered from [index] on. *)
Fixpoint issuesTexts (index : nat) (issues : list Issue) : list string :=
  match issues with
  | [] => []
  | issue :: rest => issueTexts issue index ++ issuesTexts (S index) rest
  end.

End Shown.

(* ================================================================== *)
(** * The page: App with the UploadForm it mounts *)
(* ================================================================== *)

Module Page.
Import Types.
Import JS.

(** [App], the state of the [UploadForm] instance while one is mounted, and
    the files of the requests sent and not yet settled, oldest first. *)
Record State := {
  app : App.State;
  form : option UploadForm.State;
  pending : list File
}.

Definition initial : State :=
  {| app := App.initial; form := Some UploadForm.initial; pending := [] |}.

(** Line 86: [App] renders [UploadForm] in the idle and error states. *)
Definition formMounted (a : App.State) : bool :=
  App.stateIs (App.state a) Idle || App.stateIs (App.state a) Error.

(** React keeps the state of an instance that stays mounted, gives a newly
    mounted instance its initial state, and drops the state of an instance
    that is unmounted. *)
Definition reconcile (a : App.State) (old : option UploadForm.State)
  : option UploadForm.State :=
  if formMounted a then
    Some (match old with Some f => f | None => UploadForm.initial end)
  else None.

(** A reset button is on the page: "Analyze Another" (line 71) in the success
    state, "Try again" (lines 89-103) beside the form when there is an error
    message. *)
Definition resetVisible (a : App.State) : bool :=
  App.stateIs (App.state a) Success || (formMounted a && truthy (App.error a)).

(** [handleUpload] before its [await] (lines 18-27) ... *)
Definition beginUpdates (file : File) : list App.Update :=
  [ App.SetState Uploading; App.SetError EmptyString; App.SetData None;
    App.SetUploadedFileName (name file); App.SetState Processing ].

(** ... and after it (lines 34-46). *)
Definition settleUpdates (fetched : Outcome App.Response) : list App.Update :=
  match fetched with
  | Throws err => App.catch err
  | Returns (App.NotOk status json) => App.catch (App.notOkError status json)
  | Returns (App.Ok (Throws err)) => App.catch err
  | Returns (App.Ok (Returns result)) =>
      [App.SetData (App.stored result); App.SetState Success]
  end.

(** What happens on the page: an event on the form, the settlement of the
    oldest request, a click on a reset button. *)
Inductive Event :=
| Form (ev : UploadForm.Event)
| Settle (fetched : Outcome App.Response)
| ResetClick.

(** An event on a form that is not mounted, a settlement with no request
    pending and a click on a button that is not rendered do not happen: they
    leave the page as it is.  [App] passes [isProcessing={false}] (line 88),
    and [onUpload] is [handleUpload], which runs up to its [await]. *)
Definition step (st : State) (ev : Event) : State :=
  match ev with
  | Form fev =>
      match form st with
      | None => st
      | Some f =>
          let '(f', call) := UploadForm.step false fev f in
          match call with
          | None => {| app := app st; form := Some f'; pending := pending st |}
          | Some file =>
              let a := fold_left App.update (beginUpdates file) (app st) in
              {| app := a; form := reconcile a (Some f');
                 pending := pending st ++ [file] |}
          end
      end
  | Settle fetched =>
      match pending st with
      | [] => st
      | _ :: rest =>
          let a := fold_left App.update (settleUpdates fetched) (app st) in
          {| app := a; form := reconcile a (form st); pending := rest |}
      end
  | ResetClick =>
      if resetVisible (app st) then
        let a := App.handleReset (app st) in
        {| app := a; form := reconcile a (form st); pending := pending st |}
      else st
  end.

Definition run (evs : list Event) (st : State) : State :=
  fold_left step evs st.

(** The three shapes of the page: the form is up and nothing is pending; one
    request is pending behind the loading panel; the request succeeded and
    no form is up. *)
Definition settled (st : State) : Prop :=
  (formMounted (app st) = true /\ App.data (app st) = None
   /\ (exists f, form st = Some f) /\ pending st = [])
  \/ (App.state (app st) = Processing /\ App.data (app st) = None
      /\ form st = None /\ exists file, pending st = [file])
  \/ (App.state (app st) = Success /\ form st = None /\ pending st = []).

(** What [App] holds in each state the page can rest in. *)
Definition rests (st : State) : Prop :=
  match App.state (app st) with
  | Idle => app st = App.initial /\ pending st = []
  | Uploading => False
  | Processing =>
      App.data (app st) = None /\ App.error (app st) = EmptyString
      /\ exists file, pending st = [file]
                      /\ App.uploadedFileName (app st) = name file
  | Success => App.error (app st) = EmptyString /\ pending st = []
  | Error => App.data (app st) = None /\ pending st = []
  end.

End Page.

(* ================================================================== *)
(** * More concrete inputs *)
(* ================================================================== *)

Module MoreExamples.
Import Types.
Import Examples.

Definition upperCase : File := audio "CALL.WAV" 2.

Definition doubleExtension : File := audio "notes.txt.m4a" 512.

Definition counts (n : Z) : SpeakerCounts :=
  {| segments := Num.of_Z n; duration_seconds := Num.of_Z 0;
     word_count := Num.of_Z 0 |}.

Definition sampleMetadata : Metadata :=
  {| filename := EmptyString;
     file_size_mb := Num.of_Z 3;
     processing_time_seconds := Num.of_Z 42;
     request_id := "3f2b8c1e-77aa-4d0e-9c55-0123456789ab";
     timestamp := "2024-05-01T10:00:00";
     segment_count := Num.of_Z 2;
     speaker_statistics :=
       {| agent := counts 1; customer := counts 1;
          total_segments := Num.of_Z 2;
          total_duration := S754_finite false 7656119366529843 (-50) |} |}.

Definition sampleResponse : AnalysisResponse :=
  {| transcript := transcript readmeResponse;
     issues := issues readmeResponse;
     tone := frustrated;
     metadata := Some sampleMetadata |}.

Definition whisper : TranscriptSegment :=
  {| speaker := "agent"; text := "one moment please";
     start := S754_zero false; end_ := Num.of_Z 2 |}.


End MoreExamples.

(* ================================================================== *)
(** * UploadForm: validation of the selected file *)
(* ================================================================== *)

Section UploadFormFacts.
Import UploadForm.

Lemma maxSize_value : maxSize = 26214400.
Proof. reflexivity. Qed.

(** The three exits of [handleFileSelect]. *)
Lemma handleFileSelect_bad_type (file : File) (st : State) :
  JS.includes allowedTypes (fileExt file) = false ->
  handleFileSelect file st =
  {| selectedFile := None; error := invalidTypeMessage;
     isDragging := isDragging st |}.
Proof.
  intros Hext. unfold handleFileSelect. rewrite Hext. reflexivity.
Qed.

Lemma handleFileSelect_too_big (file : File) (st : State) :
  JS.includes allowedTypes (fileExt file) = true ->
  maxSize < size file ->
  handleFileSelect file st =
  {| selectedFile := None; error := sizeMessage;
     isDragging := isDragging st |}.
Proof.
  intros Hext Hsize. unfold handleFileSelect. rewrite Hext. simpl negb. cbv iota.
  destruct (Z.gtb_spec (size file) maxSize) as [_ | Hle]; [reflexivity | lia].
Qed.

Lemma handleFileSelect_accept (file : File) (st : State) :
  JS.includes allowedTypes (fileExt file) = true ->
  size file <= maxSize ->
  handleFileSelect file st =
  {| selectedFile := Some file; error := EmptyString;
     isDragging := isDragging st |}.
Proof.
  intros Hext Hsize. unfold handleFileSelect. rewrite Hext. simpl negb. cbv iota.
  destruct (Z.gtb_spec (size file) maxSize) as [Hgt | _]; [lia | reflexivity].
Qed.

(** A file is selected by [handleFileSelect] exactly when it passes both
    checks, and then it is that file. *)
Lemma handleFileSelect_selected (file : File) (st : State) :
  selectedFile (handleFileSelect file st) =
  if validated file then Some file else None.
Proof.
  unfold validated.
  destruct (JS.includes allowedTypes (fileExt file)) eqn:Hext.
  - destruct (Z.leb_spec (size file) maxSize) as [Hle | Hgt].
    + rewrite handleFileSelect_accept by assumption. reflexivity.
    + rewrite handleFileSelect_too_big by assumption. reflexivity.
  - rewrite handleFileSelect_bad_type by assumption. reflexivity.
Qed.

(** The two error messages differ, and neither is empty. *)
Lemma messages_distinct :
  sizeMessage <> invalidTypeMessage /\ sizeMessage <> EmptyString
  /\ invalidTypeMessage <> EmptyString.
Proof. repeat split; discriminate. Qed.

End UploadFormFacts.

Section ExtensionFacts.
Import UploadForm.

(** [split] and the extension of the specification, side by side: a name
    without a dot is its own single piece; otherwise the last piece is the
    extension without its dot. *)
Lemma split_extension (s : string) :
  match Spec.extension s with
  | None => JS.split "." s = [s]
  | Some e =>
      exists first rest piece,
        JS.split "." s = first :: rest /\ JS.pop rest = Some piece
        /\ e = String "." piece
  end.
Proof.
  induction s as [| c s IH]; simpl.
  - reflexivity.
  - destruct (Spec.extension s) as [e |].
    + destruct IH as (first & rest & piece & Hsplit & Hpop & He).
      rewrite Hsplit.
      destruct (Ascii.eqb c ".").
      * exists EmptyString, (first :: rest), piece.
        repeat split; try assumption.
        simpl. destruct rest; [discriminate | assumption].
      * exists (String c first), rest, piece. repeat split; assumption.
    + rewrite IH. destruct (Ascii.eqb_spec c ".") as [-> | Hc].
      * exists EmptyString, [s], s. repeat split.
      * reflexivity.
Qed.

Lemma pop_cons_nonempty {A : Type} (x : A) (rest : list A) (y : A) :
  JS.pop rest = Some y -> JS.pop (x :: rest) = Some y.
Proof. destruct rest; [discriminate | intros H; exact H]. Qed.

(** On every name that has an extension, the string [handleFileSelect]
    tests is that extension, in lower case. *)
Lemma fileExt_of_extension (file : File) (e : string) :
  Spec.extension (name file) = Some e -> fileExt file = JS.toLowerCase e.
Proof.
  intros He. pose proof (split_extension (name file)) as H. rewrite He in H.
  destruct H as (first & rest & piece & Hsplit & Hpop & ->).
  unfold fileExt. rewrite Hsplit, (pop_cons_nonempty first rest piece Hpop).
  reflexivity.
Qed.

(** On a name without a dot, it is the whole name, in lower case, behind a
    dot. *)
Lemma fileExt_without_extension (file : File) :
  Spec.extension (name file) = None ->
  fileExt file = String "." (JS.toLowerCase (name file)).
Proof.
  intros He. pose proof (split_extension (name file)) as H. rewrite He in H.
  unfold fileExt. rewrite H. reflexivity.
Qed.

(** So on every name that has an extension, [handleFileSelect] decides as
    the specification's wording does: by the extension, case-insensitively,
    and then by the size. *)
Lemma handleFileSelect_with_extension (file : File) (st : State) (e : string) :
  Spec.extension (name file) = Some e ->
  handleFileSelect file st =
  if negb (Spec.extensionAccepted (name file)) then
    {| selectedFile := None; error := invalidTypeMessage;
       isDragging := isDragging st |}
  else if size file >? maxSize then
    {| selectedFile := None; error := sizeMessage;
       isDragging := isDragging st |}
  else
    {| selectedFile := Some file; error := EmptyString;
       isDragging := isDragging st |}.
Proof.
  intros He. unfold Spec.extensionAccepted, handleFileSelect.
  rewrite He, (fileExt_of_extension file e He). reflexivity.
Qed.

End ExtensionFacts.

Section UploadFormClaims.
Import UploadForm.
Import Examples.

(** C1, as stated, fails at the bound: a recording of exactly 26,214,400
    bytes with an accepted extension is not rejected; it becomes the
    selected file and the error is cleared. *)
Lemma C1_counterexample :
  ~ (26214400 <= size exactly25MiB ->
     selectedFile (handleFileSelect exactly25MiB initial) = None
     /\ error (handleFileSelect exactly25MiB initial) = sizeMessage).
Proof.
  intros H. assert (Hsize : 26214400 <= size exactly25MiB) by (simpl; lia).
  destruct (H Hsize) as [Hsel _]. discriminate Hsel.
Qed.

(** C1 (amended): the bound of 26,214,400 bytes is inclusive.  A file of
    more than 26,214,400 bytes never stays selected, and with an accepted
    extension it is rejected with the size error; a file of at most
    26,214,400 bytes with an accepted extension is not rejected for size:
    it becomes the selected file and the error is cleared. *)
Theorem C1_size_limit (file : File) (st : State) :
  (26214400 < size file ->
   selectedFile (handleFileSelect file st) = None)
  /\ (JS.includes allowedTypes (fileExt file) = true ->
      26214400 < size file ->
      handleFileSelect file st =
      {| selectedFile := None; error := sizeMessage;
         isDragging := isDragging st |})
  /\ (JS.includes allowedTypes (fileExt file) = true ->
      size file <= 26214400 ->
      handleFileSelect file st =
      {| selectedFile := Some file; error := EmptyString;
         isDragging := isDragging st |}).
Proof.
  rewrite <- maxSize_value. repeat split.
  - intros Hsize. rewrite handleFileSelect_selected. unfold validated.
    destruct (Z.leb_spec (size file) maxSize) as [Hle | _]; [lia |].
    rewrite andb_false_r. reflexivity.
  - apply handleFileSelect_too_big.
  - apply handleFileSelect_accept.
Qed.

(** The amended bound at work: one byte over, exactly at, and one byte under
    25 MiB. *)
Lemma C1_size_limit_witness :
  handleFileSelect over25MiB initial =
  {| selectedFile := None; error := sizeMessage; isDragging := false |}
  /\ handleFileSelect exactly25MiB initial =
     {| selectedFile := Some exactly25MiB; error := EmptyString;
        isDragging := false |}
  /\ handleFileSelect under25MiB initial =
     {| selectedFile := Some under25MiB; error := EmptyString;
        isDragging := false |}.
Proof.
  split; [| split].
  - apply (proj1 (proj2 (C1_size_limit over25MiB initial))); reflexivity.
  - apply (proj2 (proj2 (C1_size_limit exactly25MiB initial)));
      [reflexivity | discriminate].
  - apply (proj2 (proj2 (C1_size_limit under25MiB initial)));
      [reflexivity | discriminate].
Defined.

(** C2, as stated, fails: an empty file named [call.mp3] is not rejected;
    it becomes the selected file and no error is set. *)
Lemma C2_counterexample :
  ~ (size emptyRecording = 0 ->
     selectedFile (handleFileSelect emptyRecording initial) = None
     /\ error (handleFileSelect emptyRecording initial) <> EmptyString).
Proof.
  intros H. destruct (H eq_refl) as [Hsel _]. discriminate Hsel.
Qed.

(** C2 (amended): upload validation does not look at emptiness.  An empty
    file is rejected exactly when its extension is not accepted, and then
    with the invalid-type error; an empty file with an accepted extension
    becomes the selected file and the error is cleared. *)
Theorem C2_empty_file (file : File) (st : State) :
  size file = 0 ->
  handleFileSelect file st =
  if JS.includes allowedTypes (fileExt file) then
    {| selectedFile := Some file; error := EmptyString;
       isDragging := isDragging st |}
  else
    {| selectedFile := None; error := invalidTypeMessage;
       isDragging := isDragging st |}.
Proof.
  intros Hsize.
  destruct (JS.includes allowedTypes (fileExt file)) eqn:Hext.
  - apply handleFileSelect_accept; [assumption |].
    rewrite Hsize, maxSize_value. discriminate.
  - apply handleFileSelect_bad_type. assumption.
Qed.

(** Two empty files: one passes by its extension, the other fails by it. *)
Lemma C2_empty_file_witness :
  handleFileSelect emptyRecording initial =
  {| selectedFile := Some emptyRecording; error := EmptyString;
     isDragging := false |}
  /\ handleFileSelect emptyText initial =
     {| selectedFile := None; error := invalidTypeMessage;
        isDragging := false |}.
Proof.
  split.
  - exact (C2_empty_file emptyRecording initial eq_refl).
  - exact (C2_empty_file emptyText initial eq_refl).
Defined.

(** C6: a file whose name is just [mp3] has no extension, so the claim has
    it rejected with the invalid-type error; [handleFileSelect] tests
    [".mp3"], the last piece of the name behind a dot, and selects it. *)
Theorem C6_name_without_dot :
  Spec.extension (name noExtension) = None
  /\ Spec.extensionAccepted (name noExtension) = false
  /\ fileExt noExtension = ".mp3"
  /\ handleFileSelect noExtension initial =
     {| selectedFile := Some noExtension; error := EmptyString;
        isDragging := false |}.
Proof. repeat split. Qed.

(** C10: the decision of [handleFileSelect] is a function of the name and
    the size of the file.  Two files that agree on both get the same error
    message and the same outcome: both are rejected, or each becomes the
    selected file. *)
Theorem C10_decision_ignores_content (f1 f2 : File) (st : State) :
  name f1 = name f2 ->
  size f1 = size f2 ->
  error (handleFileSelect f1 st) = error (handleFileSelect f2 st)
  /\ isDragging (handleFileSelect f1 st) = isDragging (handleFileSelect f2 st)
  /\ ((selectedFile (handleFileSelect f1 st) = None
       /\ selectedFile (handleFileSelect f2 st) = None)
      \/ (selectedFile (handleFileSelect f1 st) = Some f1
          /\ selectedFile (handleFileSelect f2 st) = Some f2)).
Proof.
  intros Hname Hsize.
  assert (Hext : fileExt f1 = fileExt f2) by (unfold fileExt; rewrite Hname; reflexivity).
  unfold handleFileSelect. rewrite Hext, Hsize.
  destruct (negb (JS.includes allowedTypes (fileExt f2)));
    [| destruct (size f2 >? maxSize)]; simpl; auto.
Qed.

(** Two recordings with the same name and size and different bytes. *)
Lemma C10_decision_ignores_content_witness :
  content recordingA <> content recordingB
  /\ error (handleFileSelect recordingA initial)
     = error (handleFileSelect recordingB initial)
  /\ selectedFile (handleFileSelect recordingA initial) = Some recordingA
  /\ selectedFile (handleFileSelect recordingB initial) = Some recordingB.
Proof.
  pose proof (C10_decision_ignores_content recordingA recordingB initial
                eq_refl eq_refl) as (Herr & _ & _).
  split; [discriminate |]. split; [exact Herr |]. split; reflexivity.
Defined.

End UploadFormClaims.

(* ================================================================== *)
(** * UploadForm: when [onUpload] is called *)
(* ================================================================== *)

Section UploadFormRuns.
Import UploadForm.
Import Examples.

Lemma selection_validated_initial : selection_validated initial.
Proof. intros file H. discriminate H. Qed.

Lemma handleFileSelect_validated (file : File) (st : State) :
  selection_validated (handleFileSelect file st).
Proof.
  intros f. rewrite handleFileSelect_selected.
  destruct (validated file) eqn:Hv; [| discriminate].
  intros H. injection H as <-. exact Hv.
Qed.

Lemma step_validated (isProcessing : bool) (ev : Event) (st : State) :
  selection_validated st ->
  selection_validated (fst (step isProcessing ev st)).
Proof.
  intros Hst.
  destruct ev as [files | | | files | | |]; simpl; try exact Hst.
  - unfold handleInputChange. destruct (first_file files).
    + apply handleFileSelect_validated.
    + exact Hst.
  - unfold handleDrop. destruct (first_file files).
    + apply handleFileSelect_validated.
    + exact Hst.
  - intros f H. discriminate H.
Qed.

(** Only [Submit] calls [onUpload], and what it passes is [handleSubmit]'s
    answer. *)
Lemma step_call (isProcessing : bool) (ev : Event) (st : State) (file : File) :
  snd (step isProcessing ev st) = Some file ->
  ev = Submit /\ handleSubmit isProcessing st = Some file.
Proof.
  destruct ev; simpl; intros H; try discriminate H. split; [reflexivity | exact H].
Qed.

Lemma handleSubmit_some (isProcessing : bool) (st : State) (file : File) :
  handleSubmit isProcessing st = Some file ->
  isProcessing = false /\ selectedFile st = Some file.
Proof.
  unfold handleSubmit. destruct (selectedFile st) as [f |]; [| discriminate].
  destruct isProcessing; simpl; [discriminate |].
  intros H. injection H as <-. split; reflexivity.
Qed.

Lemma run_calls (evs : list (bool * Event)) :
  forall (st : State),
    selection_validated st ->
    Forall (fun call =>
              let '(isProcessing, at_state, file) := call in
              isProcessing = false
              /\ selectedFile at_state = Some file
              /\ validated file = true)
           (snd (run evs st)).
Proof.
  induction evs as [| [isProcessing ev] evs IH]; intros st Hst; simpl.
  - constructor.
  - pose proof (step_validated isProcessing ev st Hst) as Hnext.
    pose proof (step_call isProcessing ev st) as Hcall.
    destruct (step isProcessing ev st) as [st' call]. simpl in Hnext, Hcall.
    specialize (IH st' Hnext).
    destruct (run evs st') as [final calls]. simpl in IH |- *.
    destruct call as [file |]; [| exact IH].
    constructor; [| exact IH].
    destruct (Hcall file eq_refl) as [_ Hsubmit].
    destruct (handleSubmit_some _ _ _ Hsubmit) as [Hp Hsel].
    repeat split; try assumption. exact (Hst file Hsel).
Qed.

(** C9: [handleSubmit] calls [onUpload] neither while [isProcessing] is set
    nor while no file is selected, and the submit button is disabled in
    exactly those cases.  In every interaction with the form, from its
    initial state, each [onUpload] call is made with [isProcessing] false
    and passes the file selected at that moment, which passed
    validation. *)
Theorem C9_no_upload_unless_ready :
  (forall (isProcessing : bool) (st : State),
      isProcessing = true \/ selectedFile st = None ->
      handleSubmit isProcessing st = None
      /\ snd (step isProcessing Submit st) = None
      /\ submitDisabled isProcessing st = true)
  /\ (forall (evs : list (bool * Event)),
        Forall (fun call =>
                  let '(isProcessing, at_state, file) := call in
                  isProcessing = false
                  /\ selectedFile at_state = Some file
                  /\ validated file = true)
               (snd (run evs initial))).
Proof.
  split.
  - intros isProcessing st H. unfold step, handleSubmit, submitDisabled. simpl.
    destruct H as [-> | ->].
    + destruct (selectedFile st); repeat split.
    + repeat split.
  - intros evs. apply run_calls, selection_validated_initial.
Qed.

(** A session: a drop, a submit while processing, a reset, a submit with
    nothing selected, a selection, and the one submit that uploads. *)
Lemma C9_no_upload_unless_ready_witness :
  handleSubmit true
    (handleFileSelect recordingA initial) = None
  /\ handleSubmit false initial = None
  /\ snd (run [(false, Drop (Some [recordingA])); (true, Submit);
               (false, Reset); (false, Submit);
               (false, InputChange (Some [exactly25MiB])); (false, Submit)]
            initial)
     = [(false, handleFileSelect exactly25MiB initial, exactly25MiB)].
Proof.
  split; [| split].
  - exact (proj1 (proj1 C9_no_upload_unless_ready true
                    (handleFileSelect recordingA initial)
                    (or_introl eq_refl))).
  - exact (proj1 (proj1 C9_no_upload_unless_ready false initial
                    (or_intror eq_refl))).
  - reflexivity.
Defined.

End UploadFormRuns.

(* ================================================================== *)
(** * App: the analyze request *)
(* ================================================================== *)

Section AppClaims.
Import Types.
Import JS.
Import App.
Import Examples.









End AppClaims.

(* ================================================================== *)
(** * The views *)
(* ================================================================== *)

Section ViewClaims.
Import Types.
Import Examples.

(** A label outside the union reads [undefined] from [toneConfig], unless it
    names a member of [Object.prototype]. *)
Lemma toneConfig_outside (key : string) :
  ~ In key toneLabels ->
  ToneView.toneConfig key =
  if JS.includes ToneView.Object_prototype_keys key
  then ToneView.Inherited else ToneView.Undefined.
Proof.
  intros Hout. unfold ToneView.toneConfig.
  repeat match goal with
         | |- context [String.eqb key ?l] =>
             destruct (String.eqb_spec key l) as [-> | _];
             [exfalso; apply Hout; simpl; tauto |]
         end.
  reflexivity.
Qed.

Lemma toneConfig_inside (key : string) :
  In key toneLabels -> exists c, ToneView.toneConfig key = ToneView.Own c.
Proof.
  simpl. intros [<- | [<- | [<- | [<- | []]]]]; eexists; reflexivity.
Qed.

(** C4, as stated, fails: the label [Happy] is outside the enumeration, and
    [ToneView] gives it the treatment of a defined label, [Calm]. *)
Lemma C4_counterexample :
  ~ (~ In (label happy) toneLabels ->
     forall defined, In defined toneLabels ->
                     ToneView.config happy <> ToneView.toneConfig defined).
Proof.
  intros Hclaim.
  assert (Hout : ~ In (label happy) toneLabels).
  { simpl. intros [E | [E | [E | [E | []]]]]; discriminate E. }
  apply (Hclaim Hout "Calm").
  - simpl. tauto.
  - reflexivity.
Qed.

(** C4 (amended): a label outside the enumeration raises no error anywhere.
    The response that carries it is stored and the request ends in the
    success state with an empty error message; [ToneView] shows the label
    text as it came and takes the styling of [Calm] for it: every class name
    of the tree is the one a [Calm] tone of the same confidence and evidence
    gets.  The exception is a label that names a member of
    [Object.prototype], whose styling fields are [undefined]. *)
Theorem C4_unknown_label (H : Host) (file : File) (result : AnalysisResponse)
        (st : App.State) :
  ~ In (label (tone result)) toneLabels ->
  let st' := App.handleUpload file (JS.Returns (App.Ok (JS.Returns (App.Analysis result)))) st in
  App.state st' = Success
  /\ App.error st' = EmptyString
  /\ In (App.ToneViewC (tone result)) (App.render st')
  /\ nth_error (texts (ToneView.ToneView H (tone result))) 1
     = Some (label (tone result))
  /\ ToneView.config (tone result) =
     (if JS.includes ToneView.Object_prototype_keys (label (tone result))
      then ToneView.Inherited else ToneView.Own ToneView.Calm)
  /\ (JS.includes ToneView.Object_prototype_keys (label (tone result)) = false ->
      classNames (ToneView.ToneView H (tone result)) =
      classNames (ToneView.ToneView H
                    {| label := "Calm"; confidence := confidence (tone result);
                       tone_evidence := tone_evidence (tone result) |})).
Proof.
  intros Hout st'. subst st'.
  assert (Hconfig : ToneView.config (tone result) =
                    if JS.includes ToneView.Object_prototype_keys (label (tone result))
                    then ToneView.Inherited else ToneView.Own ToneView.Calm).
  { unfold ToneView.config. rewrite (toneConfig_outside _ Hout).
    destruct (JS.includes ToneView.Object_prototype_keys (label (tone result)));
      reflexivity. }
  split; [reflexivity |]. split; [reflexivity |]. split; [| split; [| split]].
  - unfold App.render, App.dashboard. simpl.
    destruct (metadata result); simpl; tauto.
  - reflexivity.
  - exact Hconfig.
  - intros Hown. rewrite Hown in Hconfig.
    unfold ToneView.ToneView. rewrite Hconfig. reflexivity.
Qed.

(** The label [Happy], in a response the server could send. *)
Lemma C4_unknown_label_witness :
  let st' :=
    App.handleUpload exactly25MiB
      (JS.Returns (App.Ok (JS.Returns (App.Analysis happyResponse)))) App.initial in
  App.state st' = Success
  /\ App.error st' = EmptyString
  /\ In (App.ToneViewC happy) (App.render st')
  /\ nth_error (texts (ToneView.ToneView host happy)) 1 = Some "Happy"
  /\ ToneView.config happy = ToneView.Own ToneView.Calm
  /\ classNames (ToneView.ToneView host happy) =
     classNames (ToneView.ToneView host
                   {| label := "Calm"; confidence := confidence076;
                      tone_evidence := ["Thanks a lot"] |}).
Proof.
  assert (Hout : ~ In (label (tone happyResponse)) toneLabels).
  { simpl. intros [E | [E | [E | [E | []]]]]; discriminate E. }
  destruct (C4_unknown_label host exactly25MiB happyResponse App.initial Hout)
    as (Hstate & Herror & Hmounted & Htext & Hconfig & Hclasses).
  exact (conj Hstate (conj Herror (conj Hmounted (conj Htext
           (conj Hconfig (Hclasses eq_refl)))))).
Defined.

(** C7: with zero segments [TranscriptView] renders its empty state, whose
    only text is "No transcript available", and with no issues [IssuesView]
    renders its empty state, whose only text is "No issues found"; each
    empty state is rendered for the empty list and for no other. *)
Theorem C7_empty_states (H : Host) :
  (forall transcript,
      TranscriptView.TranscriptView H transcript =
      El "div" "bg-white rounded-lg shadow-sm border border-gray-200 p-8 text-center" []
        [ Icon "w-8 h-8 text-gray-400 mx-auto mb-2";
          El "p" "text-xs text-gray-500 font-medium" []
            [ Text "No transcript available" ] ]
      <-> transcript = [])
  /\ texts (TranscriptView.TranscriptView H []) = ["No transcript available"]
  /\ (forall issues,
        IssuesView.IssuesView issues =
        El "div" "bg-white rounded-lg shadow-sm border border-gray-200 p-6 flex items-center justify-center min-h-[300px]" []
          [ El "div" "text-center" []
              [ Icon "w-8 h-8 text-gray-400 mx-auto mb-2";
                El "p" "text-xs text-gray-500 font-medium" []
                  [ Text "No issues found" ] ] ]
        <-> issues = [])
  /\ texts (IssuesView.IssuesView []) = ["No issues found"].
Proof.
  split; [| split; [| split]].
  - intros transcript. split.
    + destruct transcript; [reflexivity | discriminate].
    + intros ->. reflexivity.
  - reflexivity.
  - intros issues. split.
    + destruct issues; [reflexivity | discriminate].
    + intros ->. reflexivity.
  - reflexivity.
Qed.

End ViewClaims.

(* ================================================================== *)
(** * Numbers: rounding a product that is at most 100 *)
(* ================================================================== *)

Section RoundingFacts.
Import Num.

(** The number of binary digits of a positive number brackets it between
    two powers of two. *)
Lemma digits2_pos_bounds (p : positive) :
  2 ^ (Zpos (digits2_pos p) - 1) <= Zpos p < 2 ^ Zpos (digits2_pos p).
Proof.
  induction p as [p IH | p IH |]; simpl digits2_pos.
  - rewrite Pos2Z.inj_succ.
    replace (Z.succ (Zpos (digits2_pos p)) - 1)
      with (Z.succ (Zpos (digits2_pos p) - 1)) by lia.
    rewrite !Z.pow_succ_r by lia. lia.
  - rewrite Pos2Z.inj_succ.
    replace (Z.succ (Zpos (digits2_pos p)) - 1)
      with (Z.succ (Zpos (digits2_pos p) - 1)) by lia.
    rewrite !Z.pow_succ_r by lia. lia.
  - simpl. lia.
Qed.

(** One step of the right shift halves the mantissa, and remembers in the
    round and sticky bits whether anything was lost. *)
Lemma shr_1_m (r : shr_record) :
  0 <= shr_m r -> shr_m (shr_1 r) = shr_m r / 2.
Proof.
  destruct r as [m rb sb]. simpl. intros Hm.
  destruct m as [| [p | p |] | p]; try lia; cbn [shr_m].
  - reflexivity.
  - apply Z.div_unique with (r := 1); lia.
  - apply Z.div_unique with (r := 0); lia.
  - reflexivity.
Qed.

Lemma shr_1_inexact (r : shr_record) :
  0 <= shr_m r ->
  shr_r (shr_1 r) || shr_s (shr_1 r) = true ->
  shr_m r mod 2 <> 0 \/ shr_r r || shr_s r = true.
Proof.
  destruct r as [m rb sb]. simpl. intros Hm.
  destruct m as [| [p | p |] | p]; try lia; simpl; intros H.
  - right; exact H.
  - left. rewrite Pos2Z.inj_xI, Z.add_comm, Z.mul_comm, Z.mod_add by lia.
    discriminate.
  - right; exact H.
  - left. discriminate.
Qed.

Lemma shifted_0 (P : Z) : shifted P 0 (shr_record_of_loc P loc_Exact).
Proof.
  split; simpl.
  - rewrite Z.div_1_r. reflexivity.
  - discriminate.
Qed.

Lemma shifted_shr_1 (P k : Z) (r : shr_record) :
  0 <= P -> 0 <= k -> shifted P k r -> shifted P (k + 1) (shr_1 r).
Proof.
  intros HP Hk [Hm Hloss].
  assert (Hpow : 0 < 2 ^ k) by (apply Z.pow_pos_nonneg; lia).
  assert (Hm0 : 0 <= shr_m r) by (rewrite Hm; apply Z.div_pos; lia).
  assert (Hsucc : 2 ^ (k + 1) = 2 ^ k * 2)
    by (rewrite Z.pow_add_r by lia; reflexivity).
  split.
  - rewrite shr_1_m, Hm, Hsucc, Z.div_div by lia. reflexivity.
  - intros Hinexact Hzero.
    assert (HPq : P = 2 * (P / 2 ^ (k + 1)) * 2 ^ k).
    { pose proof (Z.div_mod P (2 ^ (k + 1)) ltac:(lia)) as Hdm.
      rewrite Hzero, Hsucc in Hdm. rewrite Hsucc. lia. }
    destruct (shr_1_inexact r Hm0 Hinexact) as [Hodd | Hbefore].
    + apply Hodd. rewrite Hm, HPq, Z.div_mul by lia.
      rewrite Z.mul_comm. apply Z.mod_mul. lia.
    + apply (Hloss Hbefore). rewrite HPq. apply Z.mod_mul. lia.
Qed.

Lemma shifted_iter (p : positive) :
  forall (P k : Z) (r : shr_record),
    0 <= P -> 0 <= k -> shifted P k r ->
    shifted P (k + Zpos p) (iter_pos shr_1 p r).
Proof.
  induction p as [p IH | p IH |]; intros P k r HP Hk Hr; simpl iter_pos.
  - replace (k + Zpos p~1) with (k + 1 + Zpos p + Zpos p) by lia.
    apply IH; try lia. apply IH; try lia. apply shifted_shr_1; assumption.
  - replace (k + Zpos p~0) with (k + Zpos p + Zpos p) by lia.
    apply IH; try lia. apply IH; assumption.
  - apply shifted_shr_1; assumption.
Qed.

(** Rounding to nearest even never passes a bound that the exact value
    respects, when the bound is itself on the grid. *)
Lemma round_nearest_even_le (P k B : Z) (r : shr_record) :
  0 <= P -> 0 <= k -> shifted P k r -> P <= B * 2 ^ k ->
  0 <= round_nearest_even (shr_m r) (loc_of_shr_record r) <= B.
Proof.
  intros HP Hk [Hm Hloss] HB.
  assert (Hpow : 0 < 2 ^ k) by (apply Z.pow_pos_nonneg; lia).
  assert (Hm0 : 0 <= shr_m r) by (rewrite Hm; apply Z.div_pos; lia).
  assert (HmB : shr_m r <= B).
  { rewrite Hm. apply Z.div_le_upper_bound; lia. }
  assert (Hstrict : shr_r r || shr_s r = true -> shr_m r + 1 <= B).
  { intros Hinexact. specialize (Hloss Hinexact).
    assert (P <> B * 2 ^ k) by (intros ->; apply Hloss, Z.mod_mul; lia).
    assert (shr_m r < B); [| lia].
    rewrite Hm. apply Z.div_lt_upper_bound; lia. }
  destruct r as [m rb sb]. simpl in *.
  destruct rb, sb; simpl; try destruct (Z.even m); specialize (Hstrict); lia.
Qed.


Lemma fexp_value (x : Z) : fexp prec emax x = Z.max (x - 53) (-1074).
Proof. reflexivity. Qed.

Lemma pow2_pos (k : Z) : 0 <= k -> 0 < 2 ^ k.
Proof. intros. apply Z.pow_pos_nonneg; lia. Qed.

(** A mantissa under [100 * 2^-E] has at most [7 - E] digits. *)
Lemma Zdigits2_le (M E : Z) :
  0 <= M -> E <= 2 -> M <= 25 * 2 ^ (2 - E) -> Zdigits2 M + E <= 7.
Proof.
  intros HM HE HB. destruct M as [| p | p]; unfold Zdigits2; try lia.
  pose proof (digits2_pos_bounds p) as [Hlow _].
  assert (Hlt : 2 ^ (Zpos (digits2_pos p) - 1) < 2 ^ (7 - E)).
  { replace (7 - E) with (5 + (2 - E)) by lia.
    rewrite Z.pow_add_r by lia. change (2 ^ 5) with 32.
    assert (0 < 2 ^ (2 - E)) by (apply pow2_pos; lia). lia. }
  apply Z.pow_lt_mono_r_iff in Hlt; lia.
Qed.

Lemma shr_fexp_bounded (M E : Z) :
  0 <= M -> E <= 2 -> M <= 25 * 2 ^ (2 - E) ->
  exists r E',
    shr_fexp prec emax M E loc_Exact = (r, E')
    /\ E <= E' <= 2 /\ shifted M (E' - E) r.
Proof.
  intros HM HE HB. pose proof (Zdigits2_le M E HM HE HB) as Hd.
  unfold shr_fexp, shr. rewrite fexp_value.
  destruct (Z.max (Zdigits2 M + E - 53) (-1074) - E) as [| p | p] eqn:Hn.
  - eexists _, _. split; [reflexivity |]. split; [lia |].
    rewrite Z.sub_diag. apply shifted_0.
  - eexists _, _. split; [reflexivity |]. split; [lia |].
    replace (E + Zpos p - E) with (0 + Zpos p) by lia.
    apply shifted_iter; try lia. apply shifted_0.
  - eexists _, _. split; [reflexivity |]. split; [lia |].
    rewrite Z.sub_diag. apply shifted_0.
Qed.

(** The product of the rounding: a value of at most 100 rounds to a value
    of at most 100, never to an infinity. *)
Lemma binary_round_aux_le (P E : Z) :
  0 <= P -> E <= 2 -> P <= 25 * 2 ^ (2 - E) ->
  match binary_round_aux prec emax false P E loc_Exact with
  | S754_zero _ => True
  | S754_finite false m e => e <= 2 /\ Zpos m <= 25 * 2 ^ (2 - e)
  | _ => False
  end.
Proof.
  intros HP HE HB. unfold binary_round_aux.
  destruct (shr_fexp_bounded P E HP HE HB) as (r1 & E1 & -> & HE1 & Hr1).
  assert (HM1 : 0 <= round_nearest_even (shr_m r1) (loc_of_shr_record r1)
                <= 25 * 2 ^ (2 - E1)).
  { apply (round_nearest_even_le P (E1 - E)); try assumption; try lia.
    rewrite <- Z.mul_assoc, <- Z.pow_add_r by lia.
    replace (2 - E1 + (E1 - E)) with (2 - E) by lia. exact HB. }
  set (M1 := round_nearest_even (shr_m r1) (loc_of_shr_record r1)) in *.
  destruct (shr_fexp_bounded M1 E1 (proj1 HM1) (proj2 HE1) (proj2 HM1))
    as (r2 & E2 & -> & HE2 & [Hm2 _]).
  assert (Hpow : 0 < 2 ^ (E2 - E1)) by (apply pow2_pos; lia).
  assert (Hm2B : 0 <= shr_m r2 <= 25 * 2 ^ (2 - E2)).
  { rewrite Hm2. split; [apply Z.div_pos; lia |].
    apply Z.div_le_upper_bound; [lia |].
    rewrite (Z.mul_comm (2 ^ (E2 - E1))), <- Z.mul_assoc, <- Z.pow_add_r by lia.
    replace (2 - E2 + (E2 - E1)) with (2 - E1) by lia. lia. }
  destruct (shr_m r2) as [| m | m]; [exact I | | lia].
  replace (E2 <=? emax - prec) with true
    by (symmetry; apply Z.leb_le; unfold emax, prec; lia).
  split; [lia | exact (proj2 Hm2B)].
Qed.

Lemma Math_round_le (m : positive) (e : Z) :
  e <= 2 -> Zpos m <= 25 * 2 ^ (2 - e) ->
  exists n, Math_round (S754_finite false m e) = Int n /\ 0 <= n <= 100.
Proof.
  intros He Hm. unfold Math_round, cond_Zopp.
  destruct (Z.leb_spec 0 e) as [Hpos | Hneg]; eexists; (split; [reflexivity |]).
  - assert (Hpow : 2 ^ (2 - e) * 2 ^ e = 4).
    { rewrite <- Z.pow_add_r by lia. replace (2 - e + e) with 2 by lia. reflexivity. }
    pose proof (pow2_pos e Hpos). pose proof (pow2_pos (2 - e)). nia.
  - pose proof (pow2_pos (- e)) as Hq.
    replace (2 - e) with (2 + - e) in Hm by lia.
    replace (1 - e) with (1 + - e) by lia.
    rewrite Z.pow_add_r in * by lia. change (2 ^ 2) with 4 in Hm. change (2 ^ 1) with 2.
    split.
    + apply Z.div_pos; lia.
    + assert (H101 : (2 * Zpos m + 2 ^ (- e)) / (2 * 2 ^ (- e)) < 101); [| lia].
      apply Z.div_lt_upper_bound; lia.
Qed.


(** A well-formed number in [0, 1] is a zero, or a positive mantissa [m] at
    an exponent [e] with [m * 2^e <= 1]. *)
(** Comparison of two positive finite numbers, as [SFcompare] makes it. *)
Lemma SFleb_finite (m m' : positive) (e e' : Z) :
  SFleb (S754_finite false m e) (S754_finite false m' e') = true ->
  e < e' \/ (e = e' /\ Zpos m <= Zpos m').
Proof.
  unfold SFleb, SFcompare.
  change (Pos.compare_cont Eq m m') with (Pos.compare m m').
  destruct (Z.compare_spec e e') as [-> | Hlt | Hgt].
  - destruct (Pos.compare_spec m m') as [-> | Hc | Hc]; intros H.
    + right. split; [reflexivity | lia].
    + right. split; [reflexivity | lia].
    + discriminate H.
  - left. assumption.
  - discriminate.
Qed.

Lemma one_value : one = S754_finite false 4503599627370496 (-52).
Proof. reflexivity. Qed.

Lemma hundred_value : hundred = S754_finite false 7036874417766400 (-46).
Proof. reflexivity. Qed.

Lemma unit_interval_cases (c : Types.number) :
  wf c = true -> in_unit_interval c = true ->
  (exists s, c = S754_zero s)
  \/ (exists m e, c = S754_finite false m e /\ e <= -52 /\ Zpos m <= 2 ^ (- e)).
Proof.
  intros Hwf Hin. apply andb_prop in Hin as [H0 H1].
  destruct c as [s | s | | s m e].
  - left. exists s. reflexivity.
  - destruct s; discriminate.
  - discriminate.
  - right. destruct s; [discriminate |]. exists m, e. split; [reflexivity |].
    rewrite one_value in H1. apply SFleb_finite in H1. clear H0.
    unfold wf, valid_binary, bounded, canonical_mantissa in Hwf.
    apply andb_prop in Hwf as [Hcanon _]. apply Z.eqb_eq in Hcanon.
    rewrite fexp_value in Hcanon.
    pose proof (digits2_pos_bounds m) as [_ Hup].
    assert (Hm53 : Zpos m < 2 ^ 53).
    { apply Z.lt_le_trans with (1 := Hup). apply Z.pow_le_mono_r; lia. }
    destruct H1 as [Hlt | [-> Hle]].
    + split; [lia |]. apply Z.le_trans with (2 ^ 53); [lia |].
      apply Z.pow_le_mono_r; lia.
    + split; [lia |]. exact Hle.
Qed.

(** [Math.round(confidence * 100)], for a confidence in [0, 1]. *)
Lemma round_percent_bounds (c : Types.number) :
  wf c = true -> in_unit_interval c = true ->
  exists n, Math_round (mul c hundred) = Int n /\ 0 <= n <= 100.
Proof.
  intros Hwf Hin.
  destruct (unit_interval_cases c Hwf Hin) as [[s ->] | (m & e & -> & He & Hm)].
  - exists 0. split; [reflexivity | lia].
  - rewrite hundred_value. unfold mul, SFmul. cbn [xorb].
    assert (HP : Zpos (m * 7036874417766400) <= 25 * 2 ^ (2 - (e + -46))).
    { rewrite Pos2Z.inj_mul. replace (2 - (e + -46)) with (48 + - e) by lia.
      rewrite Z.pow_add_r by lia.
      change (Zpos 7036874417766400) with (25 * 2 ^ 48).
      pose proof (pow2_pos 48). nia. }
    pose proof (binary_round_aux_le (Zpos (m * 7036874417766400)) (e + -46)
                  ltac:(lia) ltac:(lia) HP) as Hround.
    destruct (binary_round_aux prec emax false (Zpos (m * 7036874417766400))
                (e + -46) loc_Exact) as [s | s | | s m' e'];
      try contradiction.
    + exists 0. split; [reflexivity | lia].
    + destruct s; [contradiction |]. destruct Hround as [He' Hm'].
      apply Math_round_le; assumption.
Qed.

End RoundingFacts.

(* ================================================================== *)
(** * ToneView: the confidence percentage *)
(* ================================================================== *)

Section ToneViewClaims.
Import Types.
Import Examples.

(** Elements without inline style contribute no style declaration. *)
Lemma styles_mapi_nil {A : Type} (prop : string) (f : A -> nat -> Html) (a : list A) :
  (forall x i, styles prop (f x i) = []) ->
  forall i, flat_map (styles prop) (mapi_from i f a) = [].
Proof.
  intros Hf. induction a as [| x a IH]; intros i; simpl.
  - reflexivity.
  - rewrite Hf, IH. reflexivity.
Qed.

(** C8: for a tone whose confidence is a number in [0, 1], the percentage
    [Math.round(tone.confidence * 100)] is an integer between 0 and 100,
    and that one integer is printed in both percentage labels and gives
    the width of the progress bar. *)
Theorem C8_confidence_percent (H : Host) (tone : Tone) :
  Num.wf (confidence tone) = true ->
  Num.in_unit_interval (confidence tone) = true ->
  exists n : Z,
    0 <= n <= 100
    /\ ToneView.confidencePercent tone = Num.Int n
    /\ firstn 7 (texts (ToneView.ToneView H tone)) =
       ["Tone Analysis"; label tone; JS.show_Z n; "%";
        "Confidence"; JS.show_Z n; "%"]
    /\ styles "width" (ToneView.ToneView H tone) = [JS.show_Z n ++ "%"].
Proof.
  intros Hwf Hin.
  destruct (round_percent_bounds (confidence tone) Hwf Hin) as (n & Hn & Hrange).
  exists n. split; [exact Hrange |]. split; [exact Hn |].
  assert (Hpct : ToneView.percentText H tone = JS.show_Z n).
  { unfold ToneView.percentText, ToneView.confidencePercent. rewrite Hn.
    unfold Num.show.
    destruct (Z.ltb_spec (Z.abs n) (10 ^ 21)) as [_ | Hbig]; [reflexivity | lia]. }
  unfold ToneView.ToneView. rewrite Hpct.
  split.
  - reflexivity.
  - cbn [styles flat_map map filter fst snd app String.eqb Ascii.eqb Bool.eqb].
    f_equal. rewrite app_nil_r.
    destruct (negb (Nat.eqb (List.length (tone_evidence tone)) 0)); [| reflexivity].
    cbn [when flat_map styles map filter app].
    unfold mapi. rewrite styles_mapi_nil; reflexivity.
Qed.

(** The README's tone, of confidence 0.76. *)
Lemma C8_confidence_percent_witness :
  exists n : Z,
    0 <= n <= 100
    /\ ToneView.confidencePercent frustrated = Num.Int n
    /\ firstn 7 (texts (ToneView.ToneView host frustrated)) =
       ["Tone Analysis"; "Frustrated"; JS.show_Z n; "%";
        "Confidence"; JS.show_Z n; "%"]
    /\ styles "width" (ToneView.ToneView host frustrated) = [JS.show_Z n ++ "%"].
Proof.
  apply (C8_confidence_percent host frustrated); reflexivity.
Defined.

End ToneViewClaims.

(* ================================================================== *)
(** * UploadForm: more about selecting files *)
(* ================================================================== *)

Section UploadFormMore.
Import UploadForm.
Import Examples.
Import MoreExamples.
Import UploadFormView.

Lemma tidy_initial : tidy initial.
Proof. split; [left; reflexivity | reflexivity]. Qed.

Lemma handleFileSelect_tidy (file : File) (st : State) :
  tidy (handleFileSelect file st).
Proof.
  unfold handleFileSelect, tidy.
  destruct (negb (JS.includes allowedTypes (fileExt file)));
    [| destruct (size file >? maxSize)]; simpl; split; auto;
    intros H; contradiction H; reflexivity.
Qed.

Lemma step_tidy (isProcessing : bool) (ev : Event) (st : State) :
  tidy st -> tidy (fst (step isProcessing ev st)).
Proof.
  intros Hst.
  destruct ev as [files | | | files | | |]; simpl; try exact Hst.
  - unfold handleInputChange. destruct (first_file files);
      [apply handleFileSelect_tidy | exact Hst].
  - unfold handleDrop. destruct (first_file files);
      [apply handleFileSelect_tidy | exact Hst].
  - split; [left; reflexivity | reflexivity].
Qed.

Lemma run_tidy (evs : list (bool * Event)) :
  forall st, tidy st -> tidy (fst (run evs st)).
Proof.
  induction evs as [| [isProcessing ev] evs IH]; intros st Hst; simpl.
  - exact Hst.
  - pose proof (step_tidy isProcessing ev st Hst) as Hnext.
    destruct (step isProcessing ev st) as [st' call]. simpl in Hnext.
    specialize (IH st' Hnext).
    destruct (run evs st') as [final calls]. exact IH.
Qed.

Lemma run_validated (evs : list (bool * Event)) :
  forall st, selection_validated st -> selection_validated (fst (run evs st)).
Proof.
  induction evs as [| [isProcessing ev] evs IH]; intros st Hst; simpl.
  - exact Hst.
  - pose proof (step_validated isProcessing ev st Hst) as Hnext.
    destruct (step isProcessing ev st) as [st' call]. simpl in Hnext.
    specialize (IH st' Hnext).
    destruct (run evs st') as [final calls]. exact IH.
Qed.

(** X1: whatever the user does with the form, it never shows a selected file
    and an error at once: a file is selected only while the error message is
    empty, the file passed validation, and the message is empty or one of
    the two validation messages.  So the rendered form holds the
    selected-file card or the error box, never both. *)
Theorem form_selection_excludes_error (H : Host) (isProcessing : bool)
        (evs : list (bool * Event)) :
  let st := fst (run evs initial) in
  (forall file, selectedFile st = Some file ->
                error st = EmptyString /\ validated file = true)
  /\ In (error st) [EmptyString; invalidTypeMessage; sizeMessage]
  /\ (existsb UploadFormView.isSelectedCard (UploadFormView.render H isProcessing st)
      && existsb UploadFormView.isErrorBox (UploadFormView.render H isProcessing st)
      = false).
Proof.
  intros st.
  pose proof (run_tidy evs initial tidy_initial) as [Hmsg Hsel].
  pose proof (run_validated evs initial selection_validated_initial) as Hval.
  fold st in Hmsg, Hsel, Hval.
  split; [| split].
  - intros file Hfile. split; [| exact (Hval file Hfile)].
    apply Hsel. rewrite Hfile. discriminate.
  - simpl. destruct Hmsg as [-> | [-> | ->]]; auto.
  - unfold UploadFormView.render.
    destruct (selectedFile st) as [file |] eqn:Hfile.
    + rewrite Hsel by discriminate. reflexivity.
    + simpl. destruct (JS.truthy (error st)); reflexivity.
Qed.

(** X2: the last file offered decides alone: what [handleFileSelect] leaves
    does not depend on the file offered before, so a rejected file also
    takes a selected one away, and offering a file twice changes nothing. *)
Theorem last_selection_wins (file previous : File) (st : State) :
  handleFileSelect file (handleFileSelect previous st) = handleFileSelect file st
  /\ (validated file = false ->
      selectedFile (handleFileSelect file (handleFileSelect previous st)) = None).
Proof.
  split.
  - unfold handleFileSelect.
    destruct (negb (JS.includes allowedTypes (fileExt file)));
      [| destruct (size file >? maxSize)];
      (destruct (negb (JS.includes allowedTypes (fileExt previous)));
       [| destruct (size previous >? maxSize)]); reflexivity.
  - intros Hbad. rewrite !handleFileSelect_selected, Hbad. reflexivity.
Qed.

Lemma last_selection_wins_witness :
  selectedFile (handleFileSelect emptyText (handleFileSelect recordingA initial))
  = None.
Proof.
  exact (proj2 (last_selection_wins emptyText recordingA initial) eq_refl).
Defined.

Lemma handleFileSelect_setIsDragging (file : File) (v : bool) (st : State) :
  handleFileSelect file (setIsDragging v st)
  = setIsDragging v (handleFileSelect file st).
Proof.
  unfold handleFileSelect.
  destruct (negb (JS.includes allowedTypes (fileExt file)));
    [| destruct (size file >? maxSize)]; reflexivity.
Qed.

(** X3: a drop does to the selection and the error what choosing the same
    files in the file dialog does, and ends the dragging highlight; of
    several files only the first counts, and with no file nothing is
    selected or rejected. *)
Theorem drop_is_input_change (files : option (list File)) (st : State) :
  handleDrop files st = setIsDragging false (handleInputChange files st)
  /\ (forall file rest,
         files = Some (file :: rest) ->
         handleInputChange files st = handleFileSelect file st)
  /\ (files = None \/ files = Some [] ->
      handleInputChange files st = st).
Proof.
  split; [| split].
  - unfold handleDrop, handleInputChange.
    destruct (first_file files) as [file |]; [| reflexivity].
    apply handleFileSelect_setIsDragging.
  - intros file rest ->. reflexivity.
  - intros [-> | ->]; reflexivity.
Qed.

Lemma drop_is_input_change_witness :
  handleInputChange (Some [recordingA; emptyText]) initial
  = handleFileSelect recordingA initial
  /\ handleInputChange (Some []) initial = initial.
Proof.
  split.
  - exact (proj1 (proj2 (drop_is_input_change (Some [recordingA; emptyText]) initial))
             recordingA [emptyText] eq_refl).
  - exact (proj2 (proj2 (drop_is_input_change (Some []) initial))
             (or_intror eq_refl)).
Defined.

End UploadFormMore.

(* ================================================================== *)
(** * UploadForm: the case of the file name *)
(* ================================================================== *)

Section FileNameCase.
Import UploadForm.
Import Examples.
Import MoreExamples.

Lemma lower_ascii_dot (c : ascii) :
  Ascii.eqb (JS.lower_ascii c) "." = Ascii.eqb c ".".
Proof. destruct c as [[] [] [] [] [] [] [] []]; reflexivity. Qed.

Lemma lower_ascii_idempotent (c : ascii) :
  JS.lower_ascii (JS.lower_ascii c) = JS.lower_ascii c.
Proof. destruct c as [[] [] [] [] [] [] [] []]; reflexivity. Qed.

Lemma toLowerCase_idempotent (s : string) :
  JS.toLowerCase (JS.toLowerCase s) = JS.toLowerCase s.
Proof.
  induction s as [| c s IH]; simpl; [reflexivity |].
  rewrite lower_ascii_idempotent, IH. reflexivity.
Qed.

(** Lower-casing a name lower-cases its pieces: a dot is no letter. *)
Lemma split_toLowerCase (s : string) :
  JS.split "." (JS.toLowerCase s) = map JS.toLowerCase (JS.split "." s).
Proof.
  induction s as [| c s IH]; simpl; [reflexivity |].
  rewrite lower_ascii_dot, IH.
  destruct (Ascii.eqb c "."); [reflexivity |].
  destruct (JS.split "." s); reflexivity.
Qed.

Lemma pop_map {A B : Type} (f : A -> B) (a : list A) :
  JS.pop (map f a) = option_map f (JS.pop a).
Proof.
  induction a as [| x [| y a] IH]; try reflexivity.
  exact IH.
Qed.

Lemma fileExt_lower (file : File) :
  fileExt file =
  JS.plus_opt "." (JS.pop (JS.split "." (JS.toLowerCase (name file)))).
Proof.
  unfold fileExt. rewrite split_toLowerCase, pop_map. reflexivity.
Qed.

(** X4: validation reads the name without regard to the case of its letters:
    two files whose names differ only in case, and of one size, get the same
    error message and the same outcome. *)
Theorem validation_ignores_case (f1 f2 : File) (st : State) :
  JS.toLowerCase (name f1) = JS.toLowerCase (name f2) ->
  size f1 = size f2 ->
  fileExt f1 = fileExt f2
  /\ validated f1 = validated f2
  /\ error (handleFileSelect f1 st) = error (handleFileSelect f2 st)
  /\ (selectedFile (handleFileSelect f1 st) = None
      <-> selectedFile (handleFileSelect f2 st) = None).
Proof.
  intros Hname Hsize.
  assert (Hext : fileExt f1 = fileExt f2)
    by (rewrite !fileExt_lower, Hname; reflexivity).
  assert (Hval : validated f1 = validated f2)
    by (unfold validated; rewrite Hext, Hsize; reflexivity).
  split; [exact Hext |]. split; [exact Hval |]. split.
  - unfold handleFileSelect. rewrite Hext, Hsize.
    destruct (negb (JS.includes allowedTypes (fileExt f2)));
      [| destruct (size f2 >? maxSize)]; reflexivity.
  - rewrite !handleFileSelect_selected, Hval.
    destruct (validated f2); split; intros H; try discriminate H; reflexivity.
Qed.

Lemma validation_ignores_case_witness :
  name upperCase <> name recordingA
  /\ fileExt upperCase = fileExt recordingA
  /\ validated upperCase = validated recordingA
  /\ error (handleFileSelect upperCase initial)
     = error (handleFileSelect recordingA initial)
  /\ (selectedFile (handleFileSelect upperCase initial) = None
      <-> selectedFile (handleFileSelect recordingA initial) = None).
Proof.
  split; [discriminate |].
  exact (validation_ignores_case upperCase recordingA initial eq_refl eq_refl).
Defined.

(** X5, at work: a name with two dots is judged by what follows the last
    one. *)
Lemma handleFileSelect_with_extension_witness :
  Spec.extension (name doubleExtension) = Some ".m4a"
  /\ handleFileSelect doubleExtension initial =
     {| selectedFile := Some doubleExtension; error := EmptyString;
        isDragging := false |}.
Proof.
  split; [reflexivity |].
  exact (handleFileSelect_with_extension doubleExtension initial ".m4a" eq_refl).
Defined.

End FileNameCase.

(* ================================================================== *)
(** * App: how a request ends, and what is shown *)
(* ================================================================== *)

Section AppMore.
Import Types.
Import JS.
Import App.
Import Examples.
Import MoreExamples.



(** The text with the status code is never empty. *)
Lemma statusMessage_truthy (status : Z) : truthy (statusMessage status) = true.
Proof. reflexivity. Qed.



Lemma substring_prefix (n : nat) :
  forall s : string,
    exists rest, s = substring 0 n s ++ rest
                 /\ String.length (substring 0 n s) = Nat.min n (String.length s).
Proof.
  induction n as [| n IH]; intros s.
  - exists s. destruct s; split; reflexivity.
  - destruct s as [| c s].
    + exists EmptyString. split; reflexivity.
    + destruct (IH s) as (rest & Hs & Hlen). exists rest. simpl. split.
      * f_equal. exact Hs.
      * f_equal. exact Hlen.
Qed.

(** X9: when the response has metadata, the dashboard opens with the file
    header and the statistics cards.  The header names the file as the
    server does, or, when the server's name is empty, as the uploaded file
    was named; and of the request id it shows the first eight characters,
    or all of a shorter one. *)
Theorem header_of_metadata (file : File) (result : AnalysisResponse) (m : Metadata)
        (st : State) :
  metadata result = Some m ->
  exists shownName shownId rest more,
    dashboard (handleUpload file (Returns (Ok (Returns (Analysis result)))) st)
    = FileInfoHeader shownName (timestamp m) shownId :: StatsCards m :: more
    /\ shownName = (if truthy (filename m) then filename m else name file)
    /\ request_id m = shownId ++ rest
    /\ String.length shownId = Nat.min 8 (String.length (request_id m)).
Proof.
  intros Hm. destruct (substring_prefix 8 (request_id m)) as (rest & Hid & Hlen).
  exists (or_else (filename m) (name file)), (slice0 8 (request_id m)), rest,
    [ToneViewC (tone result); IssuesViewC (issues result);
     TranscriptViewC (transcript result)].
  split; [| split; [reflexivity | split; assumption]].
  unfold dashboard. simpl. rewrite Hm. reflexivity.
Qed.

Lemma header_of_metadata_witness :
  exists shownName shownId rest more,
    dashboard (handleUpload exactly25MiB (Returns (Ok (Returns (Analysis sampleResponse)))) initial)
    = FileInfoHeader shownName (timestamp sampleMetadata) shownId
      :: StatsCards sampleMetadata :: more
    /\ shownName = (if truthy (filename sampleMetadata)
                    then filename sampleMetadata else name exactly25MiB)
    /\ request_id sampleMetadata = shownId ++ rest
    /\ String.length shownId = Nat.min 8 (String.length (request_id sampleMetadata)).
Proof.
  exact (header_of_metadata exactly25MiB sampleResponse sampleMetadata initial eq_refl).
Defined.

End AppMore.

(* ================================================================== *)
(** * The page: one request at a time *)
(* ================================================================== *)

Section PageFacts.
Import Types.
Import JS.
Import Page.
Import Examples.
Import MoreExamples.

(** The two halves of [handleUpload] make the whole. *)
Lemma begin_then_settle (file : File) (fetched : Outcome App.Response) (a : App.State) :
  fold_left App.update (settleUpdates fetched)
    (fold_left App.update (beginUpdates file) a)
  = App.handleUpload file fetched a.
Proof.
  unfold App.handleUpload, App.handleUpload_updates.
  rewrite fold_left_app. reflexivity.
Qed.

Lemma begin_state (file : File) (a : App.State) :
  let a' := fold_left App.update (beginUpdates file) a in
  App.state a' = Processing /\ App.data a' = None.
Proof. split; reflexivity. Qed.

Lemma settle_state (fetched : Outcome App.Response) (a : App.State) :
  App.data a = None ->
  let a' := fold_left App.update (settleUpdates fetched) a in
  if App.failed fetched
  then App.state a' = Error /\ App.data a' = None
  else App.state a' = Success /\ App.error a' = App.error a.
Proof.
  intros Hdata.
  destruct fetched as [[[body | err] | status json] | err];
    cbn [App.failed]; cbv zeta;
    try (split; [reflexivity | exact Hdata]).
  split; reflexivity.
Qed.

Lemma step_settled (st : State) (ev : Event) :
  settled st -> settled (step st ev).
Proof.
  intros Hst. destruct ev as [fev | fetched |]; simpl.
  - destruct (form st) as [f |] eqn:Hform; [| exact Hst].
    destruct (UploadForm.step false fev f) as [f' [file |]] eqn:Hstep.
    + destruct Hst as [(Hm & Hd & _ & Hp) | [(_ & _ & Hnone & _) | (_ & Hnone & _)]];
        try (rewrite Hform in Hnone; discriminate Hnone).
      right; left. simpl. rewrite Hp. repeat split. exists file. reflexivity.
    + destruct Hst as [(Hm & Hd & _ & Hp) | [(_ & _ & Hnone & _) | (_ & Hnone & _)]];
        try (rewrite Hform in Hnone; discriminate Hnone).
      left. simpl. repeat split; try assumption. exists f'. reflexivity.
  - destruct (pending st) as [| file rest] eqn:Hpending; [exact Hst |].
    destruct Hst as [(_ & _ & _ & Hp) | [(Hs & Hd & Hform & [file' Hp]) | (_ & _ & Hp)]];
      try (rewrite Hpending in Hp; discriminate Hp).
    rewrite Hpending in Hp. injection Hp as -> ->.
    pose proof (settle_state fetched (app st) Hd) as Hsettle.
    cbv zeta in Hsettle.
    remember (fold_left App.update (settleUpdates fetched) (app st)) as a' eqn:Ha'.
    clear Ha'. unfold settled, reconcile, formMounted. cbn [app form pending].
    destruct (App.failed fetched).
    + destruct Hsettle as [Hstate Hdata]. left. rewrite Hstate, Hform.
      repeat split; try assumption. eexists. reflexivity.
    + destruct Hsettle as [Hstate _]. right; right. rewrite Hstate.
      repeat split.
  - destruct (resetVisible (app st)) eqn:Hvisible; [| exact Hst].
    left. simpl. unfold reconcile. simpl. repeat split.
    + eexists. reflexivity.
    + destruct Hst as [(_ & _ & _ & Hp) | [(Hs & _ & _ & _) | (_ & _ & Hp)]];
        try exact Hp.
      unfold resetVisible, formMounted in Hvisible. rewrite Hs in Hvisible.
      discriminate Hvisible.
Qed.

Lemma run_settled (evs : list Event) :
  forall st, settled st -> settled (run evs st).
Proof.
  induction evs as [| ev evs IH]; intros st Hst; simpl.
  - exact Hst.
  - apply IH, step_settled, Hst.
Qed.

Lemma settled_initial : settled initial.
Proof. left. repeat split. eexists. reflexivity. Qed.

(** X10: on the page there is never more than one request on its way.  While
    one is, [App] is in the processing state, no upload form is mounted, and
    nothing the user does to a form reaches one: no second upload can start
    before the first has settled.  The form is mounted exactly in the idle
    and error states, and a response is stored in the success state only. *)
Theorem one_request_at_a_time (evs : list Event) :
  let st := run evs initial in
  (List.length (pending st) <= 1)%nat
  /\ (pending st <> [] <-> App.state (app st) = Processing)
  /\ (form st <> None <-> formMounted (app st) = true)
  /\ (App.data (app st) <> None -> App.state (app st) = Success)
  /\ (pending st <> [] -> forall fev, step st (Form fev) = st).
Proof.
  intros st. pose proof (run_settled evs initial settled_initial) as Hst.
  fold st in Hst.
  destruct Hst as [(Hm & Hd & [f Hf] & Hp)
                  | [(Hs & Hd & Hf & [file Hp]) | (Hs & Hf & Hp)]].
  - rewrite Hp, Hf, Hd, Hm. unfold formMounted in Hm.
    split; [simpl; lia |]. split; [| split; [| split]].
    + split; [intros H; contradiction H; reflexivity |].
      intros H. rewrite H in Hm. discriminate Hm.
    + split; [reflexivity | discriminate].
    + intros H. contradiction H. reflexivity.
    + intros H. contradiction H. reflexivity.
  - unfold formMounted. rewrite Hp, Hf, Hd, Hs.
    split; [simpl; lia |]. split; [| split; [| split]].
    + split; [reflexivity | discriminate].
    + split; [intros H; contradiction H; reflexivity | discriminate].
    + intros H. contradiction H. reflexivity.
    + intros _ fev. unfold step. rewrite Hf. reflexivity.
  - unfold formMounted. rewrite Hp, Hf, Hs.
    split; [simpl; lia |]. split; [| split; [| split]].
    + split; [intros H; contradiction H; reflexivity | discriminate].
    + split; [intros H; contradiction H; reflexivity | discriminate].
    + reflexivity.
    + intros H. contradiction H. reflexivity.
Qed.

Lemma step_rests (st : State) (ev : Event) :
  settled st -> rests st -> rests (step st ev).
Proof.
  intros Hsettled Hst. destruct ev as [fev | fetched |]; cbn [step].
  - destruct (form st) as [f |] eqn:Hform; [| exact Hst].
    destruct Hsettled as [(Hm & Hd & _ & Hp) | [(_ & _ & Hnone & _) | (_ & Hnone & _)]];
      try (rewrite Hform in Hnone; discriminate Hnone).
    destruct (UploadForm.step false fev f) as [f' [file |]].
    + unfold rests. cbn. rewrite Hp. repeat split.
      exists file. split; reflexivity.
    + exact Hst.
  - destruct (pending st) as [| file rest] eqn:Hpending; [exact Hst |].
    destruct Hsettled as [(_ & _ & _ & Hp) | [(Hs & Hd & _ & [file' Hp]) | (_ & _ & Hp)]];
      try (rewrite Hpending in Hp; discriminate Hp).
    rewrite Hpending in Hp. injection Hp as -> ->.
    unfold rests in Hst. rewrite Hs in Hst. destruct Hst as (_ & Herror & _).
    pose proof (settle_state fetched (app st) Hd) as Hsettle.
    cbv zeta in Hsettle.
    remember (fold_left App.update (settleUpdates fetched) (app st)) as a' eqn:Ha'.
    clear Ha'. unfold rests. cbn [app pending].
    destruct (App.failed fetched).
    + destruct Hsettle as [-> Hdata]. split; [exact Hdata | reflexivity].
    + destruct Hsettle as [-> Herr]. rewrite Herr. split; [exact Herror | reflexivity].
  - destruct (resetVisible (app st)) eqn:Hvisible; [| exact Hst].
    unfold rests. cbn. split; [reflexivity |].
    destruct Hsettled as [(_ & _ & _ & Hp) | [(Hs & _ & _ & _) | (_ & _ & Hp)]];
      try exact Hp.
    unfold resetVisible, formMounted in Hvisible. rewrite Hs in Hvisible.
    discriminate Hvisible.
Qed.

Lemma run_rests (evs : list Event) :
  forall st, settled st -> rests st -> rests (run evs st).
Proof.
  induction evs as [| ev evs IH]; intros st Hsettled Hst; simpl.
  - exact Hst.
  - apply IH; [apply step_settled | apply step_rests]; assumption.
Qed.

(** X8: what [App] holds whenever the page is at rest, between two events.
    Idle: all four cells are as at the start.  Processing: one request is
    pending, for the file whose name is recorded, with no data and an empty
    error message.  Success: the error message is empty.  Error: no data is
    stored.  The page never rests in the uploading state: [handleUpload]
    moves on to processing before it first awaits, so "Uploading file..." is
    never what a render between two events shows. *)
Theorem page_rests (evs : list Event) :
  let st := run evs initial in
  match App.state (app st) with
  | Idle => app st = App.initial /\ pending st = []
  | Uploading => False
  | Processing =>
      App.data (app st) = None /\ App.error (app st) = EmptyString
      /\ exists file, pending st = [file]
                      /\ App.uploadedFileName (app st) = name file
  | Success => App.error (app st) = EmptyString /\ pending st = []
  | Error => App.data (app st) = None /\ pending st = []
  end.
Proof.
  intros st. apply (run_rests evs initial settled_initial).
  split; reflexivity.
Qed.

Lemma step_submit (st : State) (f : UploadForm.State) (file : File) :
  form st = Some f ->
  UploadForm.selectedFile f = Some file ->
  step st (Form UploadForm.Submit)
  = {| app := fold_left App.update (beginUpdates file) (app st);
       form := None; pending := pending st ++ [file] |}.
Proof.
  intros Hform Hfile. unfold step. rewrite Hform.
  unfold UploadForm.step, UploadForm.handleSubmit. rewrite Hfile. reflexivity.
Qed.

Lemma handleUpload_state (file : File) (fetched : Outcome App.Response) (a : App.State) :
  App.state (App.handleUpload file fetched a)
  = if App.failed fetched then Error else Success.
Proof.
  destruct fetched as [[[result | err] | status json] | err]; reflexivity.
Qed.

(** X11: an upload made from the page, from the submit to the settlement of its
    request, leaves [App] as one run of [handleUpload] does, with nothing
    pending.  After a failure the upload form is back, but as a new one: the
    file that was selected is gone, and so is any message of the form.
    After a success no form is mounted. *)
Theorem upload_from_the_page (evs : list Event) (f : UploadForm.State)
        (file : File) (fetched : Outcome App.Response) :
  let st := run evs initial in
  form st = Some f ->
  UploadForm.selectedFile f = Some file ->
  let st' := run [Form UploadForm.Submit; Settle fetched] st in
  app st' = App.handleUpload file fetched (app st)
  /\ pending st' = []
  /\ form st' = (if App.failed fetched then Some UploadForm.initial else None).
Proof.
  intros st Hform Hfile st'.
  assert (Hpending : pending st = []).
  { destruct (run_settled evs initial settled_initial)
      as [(_ & _ & _ & Hp) | [(_ & _ & Hnone & _) | (_ & _ & Hp)]];
      try exact Hp.
    fold st in Hnone. rewrite Hform in Hnone. discriminate Hnone. }
  subst st'. unfold run. cbn [fold_left].
  rewrite (step_submit st f file Hform Hfile), Hpending.
  unfold step. cbn [pending app form app].
  rewrite begin_then_settle.
  split; [reflexivity |]. split; [reflexivity |].
  unfold reconcile, formMounted. rewrite handleUpload_state.
  destruct (App.failed fetched); reflexivity.
Qed.

Lemma upload_from_the_page_witness :
  let st := run [Form (UploadForm.Drop (Some [recordingA]))] initial in
  let st' := run [Form UploadForm.Submit;
                  Settle (Returns (App.NotOk 500 (Throws NotAnError)))] st in
  App.error (app st') = "Unknown error"
  /\ pending st' = []
  /\ form st' = Some UploadForm.initial.
Proof.
  destruct (upload_from_the_page
              [Form (UploadForm.Drop (Some [recordingA]))]
              (UploadForm.handleFileSelect recordingA UploadForm.initial)
              recordingA (Returns (App.NotOk 500 (Throws NotAnError)))
              eq_refl eq_refl) as (Happ & Hpending & Hform).
  split; [| split].
  - cbv zeta. rewrite Happ. reflexivity.
  - exact Hpending.
  - exact Hform.
Defined.

End PageFacts.

(* ================================================================== *)
(** * The views: what a result shows *)
(* ================================================================== *)

Section ViewsMore.
Import Types.
Import Examples.
Import MoreExamples.

(** The text of the items of a list, when no item's text depends on its
    position. *)
Lemma texts_mapi {A : Type} (f : A -> nat -> Html) (g : A -> list string)
      (a : list A) :
  (forall x i, texts (f x i) = g x) ->
  forall i, flat_map texts (mapi_from i f a) = flat_map g a.
Proof.
  intros Hf. induction a as [| x a IH]; intros i; simpl.
  - reflexivity.
  - rewrite Hf, IH. reflexivity.
Qed.

(** X12: [ToneView] shows the evidence of a tone in full and in order, under
    the heading "Reasoning"; a tone without evidence gets no heading. *)
Theorem tone_evidence_shown (H : Host) (tone : Tone) :
  texts (ToneView.ToneView H tone) =
  ([ "Tone Analysis"; label tone; ToneView.percentText H tone; "%";
     "Confidence"; ToneView.percentText H tone; "%" ]
   ++ match tone_evidence tone with
      | [] => []
      | evidence => "Reasoning" :: evidence
      end)%list.
Proof.
  unfold ToneView.ToneView.
  cbn [texts flat_map app].
  repeat (apply f_equal).
  destruct (tone_evidence tone) as [| item evidence] eqn:He; [reflexivity |].
  cbn [List.length Nat.eqb negb when flat_map texts app].
  rewrite app_nil_r. apply f_equal. rewrite app_nil_r.
  unfold mapi.
  rewrite (texts_mapi _ (fun item => [item])) by reflexivity.
  clear He. induction (item :: evidence) as [| x l IH]; simpl; [reflexivity |].
  rewrite IH. reflexivity.
Qed.

(** X13: each of the four labels of the enumeration reads its own entry of
    [toneConfig], so the fallback to [Calm] is never taken for one of them, and
    no two of them are given the same colours. *)
Theorem defined_labels_have_their_own_colours (l1 l2 : string) :
  In l1 toneLabels -> In l2 toneLabels ->
  (exists c, ToneView.toneConfig l1 = ToneView.Own c
             /\ ToneView.or_else (ToneView.toneConfig l1) (ToneView.toneConfig "Calm")
                = ToneView.Own c)
  /\ (ToneView.toneConfig l1 = ToneView.toneConfig l2 -> l1 = l2).
Proof.
  simpl.
  intros [<- | [<- | [<- | [<- | []]]]] [<- | [<- | [<- | [<- | []]]]];
    (split; [eexists; split; reflexivity |]);
    intros E; try reflexivity; discriminate E.
Qed.

Lemma defined_labels_have_their_own_colours_witness :
  ToneView.toneConfig "Angry" <> ToneView.toneConfig "Anxious".
Proof.
  intros E.
  assert (Hin1 : In "Angry" toneLabels) by (simpl; tauto).
  assert (Hin2 : In "Anxious" toneLabels) by (simpl; tauto).
  pose proof (proj2 (defined_labels_have_their_own_colours "Angry" "Anxious" Hin1 Hin2) E)
    as Heq.
  discriminate Heq.
Defined.

Lemma segmentView_texts (H : Host) (segment : TranscriptSegment) (index : nat) :
  texts (TranscriptView.segmentView H segment index) = Shown.segmentTexts H segment.
Proof. reflexivity. Qed.

(** X14: a transcript that is not empty is shown whole: the badge gives the
    number of its segments, and then every segment follows, in the order of
    the transcript, with its speaker, its start, its end, its duration and its
    text. *)
Theorem transcript_shown (H : Host) (transcript : list TranscriptSegment) :
  transcript <> [] ->
  texts (TranscriptView.TranscriptView H transcript) =
  "Transcript" :: JS.show_Z (Z.of_nat (List.length transcript)) :: " segments"
  :: flat_map (Shown.segmentTexts H) transcript.
Proof.
  intros Hne. destruct transcript as [| segment rest]; [contradiction Hne; reflexivity |].
  unfold TranscriptView.TranscriptView.
  cbn [List.length Nat.eqb texts flat_map app].
  repeat (apply f_equal). rewrite !app_nil_r. unfold mapi.
  apply (texts_mapi (TranscriptView.segmentView H) (Shown.segmentTexts H)
           (segment :: rest) (segmentView_texts H)).
Qed.

Lemma transcript_shown_witness :
  texts (TranscriptView.TranscriptView host (transcript readmeResponse)) =
  [ "Transcript"; "2"; " segments";
    "Agent"; "0.0"; "s - "; "0.0"; "s"; "â€¢"; "0.0"; "s";
    "Hello, how can I help you?";
    "Customer"; "0.0"; "s - "; "0.0"; "s"; "â€¢"; "0.0"; "s";
    "I haven't received my refund" ].
Proof.
  apply (transcript_shown host (transcript readmeResponse)). discriminate.
Defined.

(** X15: a segment is styled as the agent's only when its speaker is exactly
    "Agent"; every other speaker, "Customer" or not, gets the styling of the
    customer. *)
Theorem speaker_styling (H : Host) (segment : TranscriptSegment) (index : nat) :
  speaker segment <> "Agent" ->
  classNames (TranscriptView.segmentView H segment index) =
  classNames (TranscriptView.segmentView H
                {| speaker := "Customer"; text := text segment;
                   start := start segment; end_ := end_ segment |} index)
  /\ classNames (TranscriptView.segmentView H segment index) <>
     classNames (TranscriptView.segmentView H
                   {| speaker := "Agent"; text := text segment;
                      start := start segment; end_ := end_ segment |} index).
Proof.
  intros Hspeaker. unfold TranscriptView.segmentView.
  destruct (String.eqb_spec (speaker segment) "Agent") as [E | _];
    [contradiction |].
  split; [reflexivity | discriminate].
Qed.

Lemma speaker_styling_witness :
  classNames (TranscriptView.segmentView host whisper 0) =
  classNames (TranscriptView.segmentView host
                {| speaker := "Customer"; text := text whisper;
                   start := start whisper; end_ := end_ whisper |} 0).
Proof.
  apply (speaker_styling host whisper 0). discriminate.
Defined.

End ViewsMore.

(* ================================================================== *)
(** * IssuesView and StatsCards *)
(* ================================================================== *)

Section IssuesMore.
Import Types.
Import Examples.
Import MoreExamples.

Lemma quotes_texts (evidence : list string) :
  forall i,
    flat_map texts
      (mapi_from i
         (fun (quote : string) (_ : nat) =>
            El "div" "text-xs text-gray-600 bg-white rounded border border-gray-200 p-2.5" []
              [ El "span" "text-orange-500" [] [ Text IssuesView.quote_mark ];
                El "span" "italic" [] [ Text quote ];
                El "span" "text-orange-500" [] [ Text IssuesView.quote_mark ] ])
         evidence)
    = flat_map Shown.quoteTexts evidence.
Proof.
  induction evidence as [| quote evidence IH]; intros i; simpl.
  - reflexivity.
  - rewrite IH. reflexivity.
Qed.

Lemma issueView_texts (issue : Issue) (index : nat) :
  texts (IssuesView.issueView issue index) = Shown.issueTexts issue index.
Proof.
  unfold IssuesView.issueView, Shown.issueTexts.
  cbn [texts flat_map app]. repeat (apply f_equal).
  destruct (issue_evidence issue) as [| quote evidence]; [reflexivity |].
  cbn [List.length Nat.eqb negb when flat_map texts app].
  rewrite !app_nil_r. apply f_equal. unfold mapi. apply quotes_texts.
Qed.

Lemma issues_texts (issues : list Issue) :
  forall i,
    flat_map texts (mapi_from i IssuesView.issueView issues)
    = Shown.issuesTexts i issues.
Proof.
  induction issues as [| issue issues IH]; intros i.
  - reflexivity.
  - cbn [mapi_from flat_map Shown.issuesTexts].
    rewrite IH, issueView_texts. reflexivity.
Qed.

(** X16: a list of issues that is not empty is shown whole: the badge gives
    their number, and then every issue follows in order, numbered from 1,
    with its title, its details, and its evidence, each quote between
    quotation marks under the heading "Evidence"; an issue without evidence
    gets no heading. *)
Theorem issues_shown (issues : list Issue) :
  issues <> [] ->
  texts (IssuesView.IssuesView issues) =
  "Issues" :: JS.show_Z (Z.of_nat (List.length issues))
  :: Shown.issuesTexts 0 issues.
Proof.
  intros Hne. destruct issues as [| issue rest]; [contradiction Hne; reflexivity |].
  unfold IssuesView.IssuesView.
  cbn [List.length Nat.eqb texts flat_map app].
  repeat (apply f_equal). rewrite !app_nil_r. unfold mapi.
  apply issues_texts.
Qed.

Lemma issues_shown_witness :
  texts (IssuesView.IssuesView (issues readmeResponse)) =
  [ "Issues"; "1"; "1"; "Refund delay"; "Refund not received in 10 days";
    "Evidence"; IssuesView.quote_mark; "I still haven't got my refund";
    IssuesView.quote_mark ].
Proof.
  apply (issues_shown (issues readmeResponse)). discriminate.
Defined.

(** X17: [StatsCards] always shows six cards, with the same six captions in the
    same order, and what it shows depends on six numbers of the metadata only:
    the file size, the processing time, the segment count, the segments of
    the agent and of the customer, and the total duration.  The per-speaker
    durations and word counts, the file name, the request id and the
    timestamp never reach the cards. *)
Theorem stats_cards_fields (H : Host) (toString : number -> string) (m1 m2 : Metadata) :
  file_size_mb m1 = file_size_mb m2 ->
  processing_time_seconds m1 = processing_time_seconds m2 ->
  segment_count m1 = segment_count m2 ->
  segments (agent (speaker_statistics m1)) = segments (agent (speaker_statistics m2)) ->
  segments (customer (speaker_statistics m1))
  = segments (customer (speaker_statistics m2)) ->
  total_duration (speaker_statistics m1) = total_duration (speaker_statistics m2) ->
  StatsCards.StatsCards H toString m1 = StatsCards.StatsCards H toString m2
  /\ map StatsCards.caption (StatsCards.stats H toString m1)
     = [ "File Size"; "Processing Time"; "Total Segments"; "Agent Segments";
         "Customer Segments"; "Total Duration" ].
Proof.
  intros Hsize Htime Hcount Hagent Hcustomer Hduration.
  split; [| reflexivity].
  unfold StatsCards.StatsCards, StatsCards.stats.
  rewrite Hsize, Htime, Hcount, Hagent, Hcustomer, Hduration. reflexivity.
Qed.

Lemma stats_cards_fields_witness :
  request_id sampleMetadata <> EmptyString
  /\ StatsCards.StatsCards host (fun _ => "n") sampleMetadata
     = StatsCards.StatsCards host (fun _ => "n")
         {| filename := "call.mp3";
            file_size_mb := file_size_mb sampleMetadata;
            processing_time_seconds := processing_time_seconds sampleMetadata;
            request_id := EmptyString;
            timestamp := EmptyString;
            segment_count := segment_count sampleMetadata;
            speaker_statistics :=
              {| agent := counts 1;
                 customer :=
                   {| segments := Num.of_Z 1; duration_seconds := Num.of_Z 7;
                      word_count := Num.of_Z 5 |};
                 total_segments := Num.of_Z 0;
                 total_duration := total_duration (speaker_statistics sampleMetadata) |} |}.
Proof.
  split; [discriminate |].
  apply (stats_cards_fields host (fun _ => "n")); reflexivity.
Defined.

End IssuesMore.
